(** * rqt_pr2_dashboard: the PR2 dashboard panel

    A shallow embedding of [src/rqt_pr2_dashboard/pr2_dashboard.py]: the
    status callback [dashboard_callback], the two motor command handlers
    [on_reset_motors] and [on_halt_motors], and the panel's [setup] with its
    single command-line option.

    The handlers talk to the outside (dialogs, ROS services, the clock) and
    may raise; they are written in a small monad that threads the panel
    object, reads the answers of the outside from a [World], records what was
    shown and called in a trace, and propagates Python exceptions. *)

From Stdlib Require Import Bool List String Ascii ZArith QArith Lia.
Import ListNotations.
Local Open Scope string_scope.
Local Open Scope list_scope.

Set Implicit Arguments.

(** ** Python values and exceptions *)

(** The exception classes that can travel through the handlers. *)
Inductive Exn : Type :=
| ServiceException (e : string)      (* rospy.ServiceException, [str(e)] *)
| TypeError (e : string)
| IndexError (e : string)
| SystemExit (code : Z)
| OtherException (cls e : string).   (* any other class *)

Inductive Outcome (A : Type) : Type :=
| Return (a : A)
| Raise (e : Exn).
Arguments Return {A} a.
Arguments Raise {A} e.

(** The line break of the two-line tooltips (the Python escape [\n]). *)
Definition nl : string := String "010"%char EmptyString.

(** [QObject.tr]: the panel installs no translator, so a source text is
    returned as it is. *)
Definition tr (sourceText : string) : string := sourceText.

(** ["{}<suffix>".format(prefix)] for a [str] prefix. *)
Definition format (prefix suffix : string) : string := prefix ++ suffix.

(** ** What the outside sees and answers *)

Module QMessageBox.
Inductive StandardButton : Type := Yes | No.

Definition eqb (a b : StandardButton) : bool :=
    match a, b with
    | Yes, Yes | No, No => true
    | _, _ => false
    end.
End QMessageBox.

(** The widget a dialog is parented to. *)
Inductive WidgetRef : Type :=
| BreakerRef (index : nat)     (* self._breakers[index] *)
| MotorsRef.                   (* self._motors *)

Inductive Event : Type :=
| Question (parent : WidgetRef) (title text : string)
           (buttons : list QMessageBox.StandardButton)
           (defaultButton : QMessageBox.StandardButton)
| Critical (parent : WidgetRef) (title text : string)
| ServiceCall (name : string) (srv : string) (args : list Z)
| EnableRequest (index : nat). (* PR2BreakerButton.set_enable on breaker [index] *)

(** The answers of the outside: the clock, the button the user presses in a
    question dialog, and for every service name whether calling it returns
    ([None]) or raises. *)
Record World : Type := {
  get_time : Q;
  question_reply : QMessageBox.StandardButton;
  service_result : string -> option Exn
}.

(** ** The handler monad *)

Section Monad.
Variable Self : Type.

Record Run (A : Type) : Type := {
    outcome : Outcome A;
    self_after : Self;
    trace : list Event
  }.

Definition M (A : Type) : Type := World -> Self -> Run A.

Definition ret {A} (a : A) : M A :=
    fun _ self => {| outcome := Return a; self_after := self; trace := [] |}.

Definition raise {A} (e : Exn) : M A :=
    fun _ self => {| outcome := Raise e; self_after := self; trace := [] |}.

Definition bind {A B} (m : M A) (k : A -> M B) : M B :=
    fun w self =>
      let r := m w self in
      match outcome r with
      | Return a =>
          let r' := k a w (self_after r) in
          {| outcome := outcome r';
             self_after := self_after r';
             trace := trace r ++ trace r' |}
      | Raise e =>
          {| outcome := Raise e; self_after := self_after r; trace := trace r |}
      end.

  (** [try: m  except <class> as e: handler], where [handler] returns [None]
      for an exception the clause does not match. *)
Definition try_except {A} (m : M A) (handler : Exn -> option (M A)) : M A :=
    fun w self =>
      let r := m w self in
      match outcome r with
      | Return a => r
      | Raise e =>
          match handler e with
          | Some h =>
              let r' := h w (self_after r) in
              {| outcome := outcome r';
                 self_after := self_after r';
                 trace := trace r ++ trace r' |}
          | None => r
          end
      end.

Definition get : M Self :=
    fun _ self => {| outcome := Return self; self_after := self; trace := [] |}.

Definition modify (f : Self -> Self) : M unit :=
    fun _ self => {| outcome := Return tt; self_after := f self; trace := [] |}.

Definition ask : M World :=
    fun w self => {| outcome := Return w; self_after := self; trace := [] |}.

Definition emit (ev : Event) : M unit :=
    fun _ self => {| outcome := Return tt; self_after := self; trace := [ev] |}.

  (** [for x in l: body(x)] *)
Fixpoint for_each {A} (l : list A) (body : A -> M unit) : M unit :=
    match l with
    | [] => ret tt
    | x :: rest => bind (body x) (fun _ => for_each rest body)
    end.

  (** [l[i]] *)
Definition getitem {A} (l : list A) (i : nat) : M A :=
    match nth_error l i with
    | Some x => ret x
    | None => raise (IndexError "list index out of range")
    end.

  (** Python 2's builtin [reduce(function, sequence)] without an initial
      value: the first item starts the fold, an empty sequence raises. *)
Definition reduce {A} (function : A -> A -> A) (sequence : list A) : M A :=
    match sequence with
    | [] => raise (TypeError "reduce() of empty sequence with no initial value")
    | x :: rest => ret (fold_left function rest x)
    end.
End Monad.

Arguments ret {Self A} a.
Arguments raise {Self A} e.
Arguments get {Self}.
Arguments modify {Self} f.
Arguments ask {Self}.
Arguments emit {Self} ev.
Arguments getitem {Self A} l i.
Arguments reduce {Self A} function sequence.

Declare Scope py_scope.
Delimit Scope py_scope with py.
Notation "x <- m ;; k" := (bind m (fun x => k))
  (at level 100, m at next level, right associativity) : py_scope.
Notation "m ;; k" := (bind m (fun _ => k))
  (at level 100, right associativity) : py_scope.
Local Open Scope py_scope.

(** ** Messages ([pr2_msgs], [std_msgs]) *)

Module std_msgs.
Record Bool : Type := { data : bool }.
End std_msgs.

(** [pr2_msgs/PowerBoardState]: the fields the panel reads.  A circuit state
    is an [int8]. *)
Record PowerBoardState : Type := {
  run_stop : bool;
  wireless_stop : bool;
  circuit_state : list Z
}.

(** [pr2_msgs/DashboardState]: the fields the panel reads.  The power state
    is only passed on, so its type is left open. *)
Record DashboardState (PowerState : Type) : Type := {
  motors_halted : std_msgs.Bool;
  motors_halted_valid : bool;
  power_board_state : PowerBoardState;
  power_board_state_valid : bool;
  power_state : PowerState;
  power_state_valid : bool
}.

(** ** The indicator widgets *)

(** Modelled from the spec: the display state of an indicator widget
    ([pr2_motors.py], [pr2_runstop.py], [pr2_breaker.py] and [pr2_battery.py]
    are not among the sources).  An indicator is in one of the states Ok,
    Error, Stale and Disabled and carries a tooltip; it starts Disabled with
    the tooltip unset, and a setter overwrites what was displayed before. *)
Inductive IndicatorState : Type := Ok | Error | Stale | Disabled.

Module PR2Motors.
  (** Modelled from the spec: the motor indicator, a state and a tooltip. *)
Record t : Type := { state : IndicatorState; toolTip : string }.

Definition init : t := {| state := Disabled; toolTip := "" |}.
Definition set_ok (w : t) : t := {| state := Ok; toolTip := toolTip w |}.
Definition set_error (w : t) : t := {| state := Error; toolTip := toolTip w |}.
Definition set_stale (w : t) : t := {| state := Stale; toolTip := toolTip w |}.
Definition setToolTip (s : string) (w : t) : t :=
    {| state := state w; toolTip := s |}.
End PR2Motors.

Module PR2Runstops.
  (** Modelled from the spec: the runstop indicator has, besides Ok and
      Stale, a physical-engaged and a wireless-engaged state. *)
Inductive State : Type :=
  | Ok | PhysicalEngaged | WirelessEngaged | Stale | Disabled.

Record t : Type := { name : string; state : State; toolTip : string }.

Definition init (name : string) : t :=
    {| name := name; state := Disabled; toolTip := "" |}.
Definition set (s : State) (w : t) : t :=
    {| name := name w; state := s; toolTip := toolTip w |}.
Definition set_ok : t -> t := set Ok.
Definition set_physical_engaged : t -> t := set PhysicalEngaged.
Definition set_wireless_engaged : t -> t := set WirelessEngaged.
Definition set_stale : t -> t := set Stale.
Definition setToolTip (s : string) (w : t) : t :=
    {| name := name w; state := state w; toolTip := s |}.
End PR2Runstops.

Module PR2BreakerButton.
  (** Modelled from the spec: a breaker indicator shows either its
      default/disabled state or its own per-index reading of the last power
      board state it received; how an index reads a board state is the
      widget's business and is kept symbolic. *)
Inductive View : Type :=
  | Default
  | Board (msg : PowerBoardState).

Record t : Type := { name : string; index : nat; view : View }.

Definition init (name : string) (index : nat) : t :=
    {| name := name; index := index; view := Default |}.
Definition set_power_board_state_msg (msg : PowerBoardState) (w : t) : t :=
    {| name := name w; index := index w; view := Board msg |}.
Definition reset (w : t) : t :=
    {| name := name w; index := index w; view := Default |}.

  (** Modelled from the spec: an enable request is visual-only, it calls no
      remote service, and the Status Mapper is the only writer of the
      indicator state; the request is recorded as an event of the breaker
      and leaves the panel object as it is. *)
Definition set_enable {Self : Type} (w : t) : M Self unit :=
    emit (EnableRequest (index w)).
End PR2BreakerButton.

Module PR2Battery.
  (** Modelled from the spec: the battery indicator shows Stale or its own
      reading of the last power state it received. *)
Inductive t (PowerState : Type) : Type :=
  | Default
  | Stale
  | Power (msg : PowerState).
Arguments Default {PowerState}.
Arguments Stale {PowerState}.
Arguments Power {PowerState} msg.

Definition init {PowerState} : t PowerState := Default.
Definition set_power_state {PowerState} (msg : PowerState) (w : t PowerState)
    : t PowerState := Power msg.
Definition set_stale {PowerState} (w : t PowerState) : t PowerState := Stale.
End PR2Battery.

(** ** Services and dialogs *)

Module rospy.
Record ServiceProxy : Type := { name : string; service_class : string }.

  (** [proxy()]: the call is seen by the outside, which lets it return or
      raise. *)
Definition call {Self : Type} (proxy : ServiceProxy) (args : list Z)
    : M Self unit :=
    emit (ServiceCall (name proxy) (service_class proxy) args) ;;
    w <- ask ;;
    match service_result w (name proxy) with
    | None => ret tt
    | Some e => raise e
    end.

Record Subscriber : Type := { topic : string; registered : bool }.
Definition unregister (s : Subscriber) : Subscriber :=
    {| topic := topic s; registered := false |}.
End rospy.

Definition question {Self : Type} (parent : WidgetRef) (title text : string)
    (buttons : list QMessageBox.StandardButton)
    (defaultButton : QMessageBox.StandardButton)
  : M Self QMessageBox.StandardButton :=
  emit (Question parent title text buttons defaultButton) ;;
  w <- ask ;;
  ret (question_reply w).

Definition critical {Self : Type} (parent : WidgetRef) (title text : string)
  : M Self unit :=
  emit (Critical parent title text).

(** ** Command-line options ([argparse]) *)

Module argparse.
(** What the panel hands to [argparse] and what it gets back.  A parser is
    the list of the options declared on it, each with its option string, its
    destination, its value type and its default; a parsed argument list is a
    namespace of attribute values.  How the library reads an argument list
    is its own business: the panel is given its [parse_args]. *)
Record Action : Type := {
  option_string : string;
  dest : string;
  type_ : string;
  default : string
}.

Record ArgumentParser : Type := {
  prog : string;
  add_help : bool;
  actions : list Action
}.

Definition Namespace : Type := list (string * string).

Definition add_argument (a : Action) (parser : ArgumentParser) : ArgumentParser :=
  {| prog := prog parser; add_help := add_help parser;
     actions := actions parser ++ [a] |}.

(** [ns.key]: the value of the attribute, or AttributeError. *)
Fixpoint getattr (ns : Namespace) (key : string) : Outcome string :=
  match ns with
  | [] => Raise (OtherException "AttributeError" key)
  | (k, v) :: rest => if String.eqb k key then Return v else getattr rest key
  end.
End argparse.

(** ** The panel *)

Section Panel.
Variable PowerState : Type.

(** [ArgumentParser.parse_args] of the Python library: for a parser and an
    argument list, the namespace it returns or the exception it raises. *)
Variable parse_args :
  argparse.ArgumentParser -> list string -> Outcome argparse.Namespace.

(** [PowerBoardState.STATE_ON], a constant of [pr2_msgs]. *)
Variable STATE_ON : Z.

(** The attributes [setup] gives the panel object (the console and monitor
    widgets of [rqt_robot_dashboard] are left out). *)
Record PR2Dashboard : Type := {
  name : string;
  max_icon_size : Z * Z;
  message : option string;
  _motor_namespace : string;
  _dashboard_message : option (DashboardState PowerState);
  _last_dashboard_message_time : Q;
  _raw_byte : option Z;
  digital_outs : list Z;
  _motors : PR2Motors.t;
  _breakers : list PR2BreakerButton.t;
  _runstop : PR2Runstops.t;
  _batteries : list (PR2Battery.t PowerState);
  _dashboard_agg_sub : rospy.Subscriber
}.

(** *** Assignments to attributes *)

Definition set_dashboard_message (v : option (DashboardState PowerState))
    (self : PR2Dashboard) : PR2Dashboard :=
  {| name := name self; max_icon_size := max_icon_size self;
     message := message self; _motor_namespace := _motor_namespace self;
     _dashboard_message := v;
     _last_dashboard_message_time := _last_dashboard_message_time self;
     _raw_byte := _raw_byte self; digital_outs := digital_outs self;
     _motors := _motors self; _breakers := _breakers self;
     _runstop := _runstop self; _batteries := _batteries self;
     _dashboard_agg_sub := _dashboard_agg_sub self |}.

Definition set_last_dashboard_message_time (v : Q) (self : PR2Dashboard)
  : PR2Dashboard :=
  {| name := name self; max_icon_size := max_icon_size self;
     message := message self; _motor_namespace := _motor_namespace self;
     _dashboard_message := _dashboard_message self;
     _last_dashboard_message_time := v;
     _raw_byte := _raw_byte self; digital_outs := digital_outs self;
     _motors := _motors self; _breakers := _breakers self;
     _runstop := _runstop self; _batteries := _batteries self;
     _dashboard_agg_sub := _dashboard_agg_sub self |}.

Definition set_motors (v : PR2Motors.t) (self : PR2Dashboard) : PR2Dashboard :=
  {| name := name self; max_icon_size := max_icon_size self;
     message := message self; _motor_namespace := _motor_namespace self;
     _dashboard_message := _dashboard_message self;
     _last_dashboard_message_time := _last_dashboard_message_time self;
     _raw_byte := _raw_byte self; digital_outs := digital_outs self;
     _motors := v; _breakers := _breakers self;
     _runstop := _runstop self; _batteries := _batteries self;
     _dashboard_agg_sub := _dashboard_agg_sub self |}.

Definition set_breakers (v : list PR2BreakerButton.t) (self : PR2Dashboard)
  : PR2Dashboard :=
  {| name := name self; max_icon_size := max_icon_size self;
     message := message self; _motor_namespace := _motor_namespace self;
     _dashboard_message := _dashboard_message self;
     _last_dashboard_message_time := _last_dashboard_message_time self;
     _raw_byte := _raw_byte self; digital_outs := digital_outs self;
     _motors := _motors self; _breakers := v;
     _runstop := _runstop self; _batteries := _batteries self;
     _dashboard_agg_sub := _dashboard_agg_sub self |}.

Definition set_runstop (v : PR2Runstops.t) (self : PR2Dashboard) : PR2Dashboard :=
  {| name := name self; max_icon_size := max_icon_size self;
     message := message self; _motor_namespace := _motor_namespace self;
     _dashboard_message := _dashboard_message self;
     _last_dashboard_message_time := _last_dashboard_message_time self;
     _raw_byte := _raw_byte self; digital_outs := digital_outs self;
     _motors := _motors self; _breakers := _breakers self;
     _runstop := v; _batteries := _batteries self;
     _dashboard_agg_sub := _dashboard_agg_sub self |}.

Definition set_batteries (v : list (PR2Battery.t PowerState))
    (self : PR2Dashboard) : PR2Dashboard :=
  {| name := name self; max_icon_size := max_icon_size self;
     message := message self; _motor_namespace := _motor_namespace self;
     _dashboard_message := _dashboard_message self;
     _last_dashboard_message_time := _last_dashboard_message_time self;
     _raw_byte := _raw_byte self; digital_outs := digital_outs self;
     _motors := _motors self; _breakers := _breakers self;
     _runstop := _runstop self; _batteries := v;
     _dashboard_agg_sub := _dashboard_agg_sub self |}.

Definition set_dashboard_agg_sub (v : rospy.Subscriber) (self : PR2Dashboard)
  : PR2Dashboard :=
  {| name := name self; max_icon_size := max_icon_size self;
     message := message self; _motor_namespace := _motor_namespace self;
     _dashboard_message := _dashboard_message self;
     _last_dashboard_message_time := _last_dashboard_message_time self;
     _raw_byte := _raw_byte self; digital_outs := digital_outs self;
     _motors := _motors self; _breakers := _breakers self;
     _runstop := _runstop self; _batteries := _batteries self;
     _dashboard_agg_sub := v |}.

(** *** Method calls on the widgets the panel holds

    A widget is an object: calling a method on it changes the widget the
    panel refers to. *)

(** [self._motors.method()] *)
Definition motors_do (method : PR2Motors.t -> PR2Motors.t) : M PR2Dashboard unit :=
  modify (fun self => set_motors (method (_motors self)) self).

(** [self._runstop.method()] *)
Definition runstop_do (method : PR2Runstops.t -> PR2Runstops.t)
  : M PR2Dashboard unit :=
  modify (fun self => set_runstop (method (_runstop self)) self).

(** [l[i] = x] for an index in range. *)
Fixpoint setitem {A} (l : list A) (i : nat) (x : A) : list A :=
  match l, i with
  | [], _ => []
  | _ :: rest, O => x :: rest
  | y :: rest, S j => y :: setitem rest j x
  end.

(** [self._batteries[i].method()]: the index is looked up first. *)
Definition battery_do (i : nat)
    (method : PR2Battery.t PowerState -> PR2Battery.t PowerState)
  : M PR2Dashboard unit :=
  self <- get ;;
  battery <- getitem (_batteries self) i ;;
  modify (fun self => set_batteries (setitem (_batteries self) i (method battery)) self).

(** [[breaker.method() for breaker in self._breakers]] *)
Definition breakers_do (method : PR2BreakerButton.t -> PR2BreakerButton.t)
  : M PR2Dashboard unit :=
  modify (fun self => set_breakers (map method (_breakers self)) self).

(** *** [add_arguments] and [setup] *)

Definition add_arguments (parser : argparse.ArgumentParser)
  : argparse.ArgumentParser :=
  argparse.add_argument
    {| argparse.option_string := "--motor-namespace";
       argparse.dest := "motor_namespace";
       argparse.type_ := "str";
       argparse.default := "pr2_ethercat" |}
    parser.

(** [setup(context)], given [context.argv()]. *)
Definition setup (argv : list string) : Outcome PR2Dashboard :=
  let parser :=
    add_arguments {| argparse.prog := "pr2_dashboard";
                     argparse.add_help := false;
                     argparse.actions := [] |} in
  match parse_args parser argv with
  | Raise e => Raise e
  | Return args =>
      match argparse.getattr args "motor_namespace" with
      | Raise e => Raise e
      | Return motor_namespace =>
          Return
            {| name := "PR2 Dashboard";
               max_icon_size := (50, 30)%Z;
               message := None;
               _motor_namespace := motor_namespace;
               _dashboard_message := None;
               _last_dashboard_message_time := 0%Q;
               _raw_byte := None;
               digital_outs := [0; 0; 0]%Z;
               _motors := PR2Motors.init;
               _breakers := [PR2BreakerButton.init "Left Arm" 0;
                             PR2BreakerButton.init "Base" 1;
                             PR2BreakerButton.init "Right Arm" 2];
               _runstop := PR2Runstops.init "RunStops";
               _batteries := [PR2Battery.init];
               _dashboard_agg_sub :=
                 {| rospy.topic := "dashboard_agg"; rospy.registered := true |} |}
      end
  end.

Definition shutdown_dashboard : M PR2Dashboard unit :=
  modify (fun self =>
            set_dashboard_agg_sub (rospy.unregister (_dashboard_agg_sub self)) self).

(** *** [dashboard_callback] *)

Definition dashboard_callback (msg : DashboardState PowerState)
  : M PR2Dashboard unit :=
  modify (set_dashboard_message (Some msg)) ;;
  w <- ask ;;
  modify (set_last_dashboard_message_time (get_time w)) ;;

  (if motors_halted_valid msg then
     if negb (std_msgs.data (motors_halted msg)) then
       motors_do PR2Motors.set_ok ;;
       motors_do (PR2Motors.setToolTip (tr "Motors: Running"))
     else
       motors_do PR2Motors.set_error ;;
       motors_do (PR2Motors.setToolTip (tr "Motors: Halted"))
   else
     motors_do PR2Motors.set_stale ;;
     motors_do (PR2Motors.setToolTip (tr "Motors: Stale"))) ;;

  (if power_state_valid msg then
     battery_do 0 (PR2Battery.set_power_state (power_state msg))
   else
     battery_do 0 PR2Battery.set_stale) ;;

  (if power_board_state_valid msg then
     breakers_do (PR2BreakerButton.set_power_board_state_msg (power_board_state msg)) ;;
     (if run_stop (power_board_state msg) then
        runstop_do PR2Runstops.set_ok ;;
        runstop_do (PR2Runstops.setToolTip
                      (tr ("Physical Runstop: OK" ++ nl ++ "Wireless Runstop: OK")))
      else if wireless_stop (power_board_state msg) then
        runstop_do PR2Runstops.set_physical_engaged ;;
        runstop_do (PR2Runstops.setToolTip
                      (tr ("Physical Runstop: Pressed" ++ nl ++ "Wireless Runstop: OK")))
      else ret tt) ;;
     (if negb (wireless_stop (power_board_state msg)) then
        runstop_do PR2Runstops.set_wireless_engaged ;;
        runstop_do (PR2Runstops.setToolTip
                      (tr ("Physical Runstop: Unknown" ++ nl ++ "Wireless Runstop: Pressed")))
      else ret tt)
   else
     breakers_do PR2BreakerButton.reset ;;
     runstop_do PR2Runstops.set_stale ;;
     runstop_do (PR2Runstops.setToolTip
                   (tr ("Physical Runstop: Stale" ++ nl ++ "Wireless Runstop: Stale")))).

(** *** [on_reset_motors] and [on_halt_motors] *)

Definition on_reset_motors : M PR2Dashboard unit :=
  self <- get ;;
  (* if any of the breakers is not enabled ask if they'd like to enable them *)
  (match _dashboard_message self with
   | Some dashboard_message =>
       if power_board_state_valid dashboard_message then
         all_breakers_enabled <-
           reduce (fun x y => x && y)
                  (map (fun state => Z.eqb state STATE_ON)
                       (circuit_state (power_board_state dashboard_message))) ;;
         if negb all_breakers_enabled then
           parent <- getitem (_breakers self) 0 ;;
           answer <-
             question (BreakerRef 0) (tr "Enable Breakers?")
               (tr "Resetting the motors may not work because not all breakers are enabled.  Enable all the breakers first?")
               [QMessageBox.Yes; QMessageBox.No] QMessageBox.Yes ;;
           if QMessageBox.eqb answer QMessageBox.Yes then
             for_each (_breakers self) PR2BreakerButton.set_enable
           else ret tt
         else ret tt
       else ret tt
   | None => ret tt
   end) ;;
  let reset :=
    {| rospy.name := format (_motor_namespace self) "/reset_motors";
       rospy.service_class := "std_srvs/Empty" |} in
  try_except (rospy.call reset [])
    (fun e =>
       match e with
       | ServiceException e =>
           Some (parent <- getitem (_breakers self) 0 ;;
                 critical (BreakerRef 0) "Error"
                   ("Failed to reset the motors: service call failed with error: " ++ e))
       | _ => None
       end).

Definition on_halt_motors : M PR2Dashboard unit :=
  self <- get ;;
  let halt :=
    {| rospy.name := format (_motor_namespace self) "/halt_motors";
       rospy.service_class := "std_srvs/Empty" |} in
  try_except (rospy.call halt [])
    (fun e =>
       match e with
       | ServiceException e =>
           Some (critical MotorsRef "Error"
                   ("Failed to halt the motors: service call failed with error: " ++ e))
       | _ => None
       end).

End Panel.

(** * Specification vocabulary *)

Section Vocabulary.
Variable PowerState : Type.
Variable STATE_ON : Z.

(** What [setup] establishes and every handler keeps: the panel holds its
    three breaker buttons and its one battery widget. *)
Definition panel_ok (self : PR2Dashboard PowerState) : bool :=
  Nat.eqb (List.length (_breakers self)) 3
  && Nat.eqb (List.length (_batteries self)) 1.

(** Every entry of a circuit-state sequence equals ON. *)
Definition all_on (circuit : list Z) : bool :=
  forallb (fun state => Z.eqb state STATE_ON) circuit.

(** A last-received status exists, its power-board section is valid, and not
    every entry of its circuit state equals ON. *)
Definition needs_confirmation (self : PR2Dashboard PowerState) : bool :=
  match _dashboard_message self with
  | Some status =>
      power_board_state_valid status
      && negb (all_on (circuit_state (power_board_state status)))
  | None => false
  end.

(** The last-received status, when there is one with a valid power-board
    section, has at least one circuit state. *)
Definition circuit_state_present (self : PR2Dashboard PowerState) : bool :=
  match _dashboard_message self with
  | Some status =>
      if power_board_state_valid status then
        match circuit_state (power_board_state status) with
        | [] => false
        | _ :: _ => true
        end
      else true
  | None => true
  end.

(** The endpoints of the two motor commands. *)
Definition reset_motors_service (self : PR2Dashboard PowerState) : string :=
  _motor_namespace self ++ "/reset_motors".

Definition halt_motors_service (self : PR2Dashboard PowerState) : string :=
  _motor_namespace self ++ "/halt_motors".

(** The confirmation dialog of [on_reset_motors]. *)
Definition enable_breakers_question : Event :=
  Question (BreakerRef 0) "Enable Breakers?"
    "Resetting the motors may not work because not all breakers are enabled.  Enable all the breakers first?"
    [QMessageBox.Yes; QMessageBox.No] QMessageBox.Yes.

(** The error dialog a failed remote call ends in. *)
Definition failure_dialog (parent : WidgetRef) (action : string)
    (result : option Exn) : list Event :=
  match result with
  | Some (ServiceException e) =>
      [Critical parent "Error"
         ("Failed to " ++ action
          ++ " the motors: service call failed with error: " ++ e)]
  | _ => []
  end.

(** How a remote call ends for the handler: a service failure is handled on
    the spot, any other exception travels on. *)
Definition call_outcome (result : option Exn) : Outcome unit :=
  match result with
  | None | Some (ServiceException _) => Return tt
  | Some e => Raise e
  end.
End Vocabulary.

Definition is_question (ev : Event) : bool :=
  match ev with Question _ _ _ _ _ => true | _ => false end.

Definition is_critical (ev : Event) : bool :=
  match ev with Critical _ _ _ => true | _ => false end.

Definition is_service_call (ev : Event) : bool :=
  match ev with ServiceCall _ _ _ => true | _ => false end.

Definition is_enable_request (ev : Event) : bool :=
  match ev with EnableRequest _ => true | _ => false end.

(** ** Sample values *)

Module Sample.
(** A world in which the user presses Yes and every service call fails. *)
Definition failing_world : World :=
  {| get_time := 1%Q;
     question_reply := QMessageBox.Yes;
     service_result := fun _ => Some (ServiceException "unable to connect") |}.

(** A world in which the user presses No and every service call returns. *)
Definition quiet_world : World :=
  {| get_time := 2%Q;
     question_reply := QMessageBox.No;
     service_result := fun _ => None |}.

(** The answer of the parser to an argument list without the option: the
    destination keeps the declared default. *)
Definition parse_no_options (parser : argparse.ArgumentParser)
    (argv : list string) : Outcome argparse.Namespace :=
  Return [("motor_namespace", "pr2_ethercat")].

(** The answer of the parser to an argument list that sets the motor
    namespace to [base_ethercat]. *)
Definition parse_base_ethercat (parser : argparse.ArgumentParser)
    (argv : list string) : Outcome argparse.Namespace :=
  Return [("motor_namespace", "base_ethercat")].

(** The panel [setup] builds when the argument list names no option. *)
Definition fresh_panel : PR2Dashboard Z :=
  {| name := "PR2 Dashboard";
     max_icon_size := (50, 30)%Z;
     message := None;
     _motor_namespace := "pr2_ethercat";
     _dashboard_message := None;
     _last_dashboard_message_time := 0%Q;
     _raw_byte := None;
     digital_outs := [0; 0; 0]%Z;
     _motors := PR2Motors.init;
     _breakers := [PR2BreakerButton.init "Left Arm" 0;
                   PR2BreakerButton.init "Base" 1;
                   PR2BreakerButton.init "Right Arm" 2];
     _runstop := PR2Runstops.init "RunStops";
     _batteries := [PR2Battery.init];
     _dashboard_agg_sub :=
       {| rospy.topic := "dashboard_agg"; rospy.registered := true |} |}.

Definition status (halted_valid halted board_valid run wireless : bool)
    (circuit : list Z) (power_valid : bool) : DashboardState Z :=
  {| motors_halted := {| std_msgs.data := halted |};
     motors_halted_valid := halted_valid;
     power_board_state :=
       {| run_stop := run; wireless_stop := wireless; circuit_state := circuit |};
     power_board_state_valid := board_valid;
     power_state := 87%Z;
     power_state_valid := power_valid |}.

(** Motors running, physical runstop released, wireless runstop pressed, the
    base breaker in standby (with ON = 3). *)
Definition standby_status : DashboardState Z :=
  status true false true true false [3; 1; 3]%Z true.

(** A status with nothing valid. *)
Definition stale_status : DashboardState Z :=
  status false true false true true [3; 3; 3]%Z false.

(** A valid power-board section that lists no circuit at all. *)
Definition no_circuit_status : DashboardState Z :=
  status true false true true true [] true.

(** The fresh panel after it has received a status. *)
Definition panel_with (msg : DashboardState Z) : PR2Dashboard Z :=
  self_after (dashboard_callback msg quiet_world fresh_panel).
End Sample.

(** ** Handlers that leave the panel object alone *)

(** A computation that hands the panel object on as it received it,
    whatever it shows, calls or raises. *)
Definition keeps_self {Self A : Type} (m : M Self A) : Prop :=
  forall w self, self_after (m w self) = self.

(** ** The widget layout and the life of a panel *)

Module Widget.
(** What [get_widgets] hands to the dashboard frame: the monitor and the
    console of [rqt_robot_dashboard], and the panel's own widgets. *)
Inductive t (PowerState : Type) : Type :=
| Monitor
| Console
| Motors (w : PR2Motors.t)
| Breaker (w : PR2BreakerButton.t)
| Runstop (w : PR2Runstops.t)
| Battery (w : PR2Battery.t PowerState).
Arguments Monitor {PowerState}.
Arguments Console {PowerState}.
Arguments Motors {PowerState} w.
Arguments Breaker {PowerState} w.
Arguments Runstop {PowerState} w.
Arguments Battery {PowerState} w.
End Widget.

Section Life.
Variable PowerState : Type.
Variable parse_args :
  argparse.ArgumentParser -> list string -> Outcome argparse.Namespace.
Variable STATE_ON : Z.

(** [get_widgets]: one row per group. *)
Definition get_widgets (self : PR2Dashboard PowerState)
  : list (list (Widget.t PowerState)) :=
  [[Widget.Monitor; Widget.Console; Widget.Motors (_motors self)];
   map Widget.Breaker (_breakers self);
   [Widget.Runstop (_runstop self)];
   map Widget.Battery (_batteries self)].

(** The panels a run of the plugin can be in: what [setup] returns, and
    from there what the callback, the two commands and the shutdown leave. *)
Inductive reachable : PR2Dashboard PowerState -> Prop :=
| reach_setup argv self :
    setup PowerState parse_args argv = Return self -> reachable self
| reach_callback msg w self :
    reachable self -> reachable (self_after (dashboard_callback msg w self))
| reach_reset_motors w self :
    reachable self -> reachable (self_after (on_reset_motors STATE_ON w self))
| reach_halt_motors w self :
    reachable self -> reachable (self_after (on_halt_motors w self))
| reach_shutdown w self :
    reachable self -> reachable (self_after (shutdown_dashboard w self)).

(** [evolves shut self0 self]: the panel [self0] has become [self] through
    statuses, commands and shutdowns; [shut] tells whether
    [shutdown_dashboard] was among them. *)
Inductive evolves : bool -> PR2Dashboard PowerState
                    -> PR2Dashboard PowerState -> Prop :=
| evolves_start self0 : evolves false self0 self0
| evolves_callback shut msg w self0 self :
    evolves shut self0 self ->
    evolves shut self0 (self_after (dashboard_callback msg w self))
| evolves_reset_motors shut w self0 self :
    evolves shut self0 self ->
    evolves shut self0 (self_after (on_reset_motors STATE_ON w self))
| evolves_halt_motors shut w self0 self :
    evolves shut self0 self ->
    evolves shut self0 (self_after (on_halt_motors w self))
| evolves_shutdown shut w self0 self :
    evolves shut self0 self ->
    evolves true self0 (self_after (shutdown_dashboard w self)).

(** The label and the circuit index of a breaker button. *)
Definition breaker_label (breaker : PR2BreakerButton.t) : string * nat :=
  (PR2BreakerButton.name breaker, PR2BreakerButton.index breaker).

(** The panel after a status has gone through [dashboard_callback], on a
    panel that holds a battery widget. *)
Definition panel_after (msg : DashboardState PowerState) (now : Q)
    (self : PR2Dashboard PowerState) : PR2Dashboard PowerState :=
  {| name := name self; max_icon_size := max_icon_size self;
     message := message self; _motor_namespace := _motor_namespace self;
     _dashboard_message := Some msg;
     _last_dashboard_message_time := now;
     _raw_byte := _raw_byte self; digital_outs := digital_outs self;
     _motors :=
       {| PR2Motors.state :=
            if motors_halted_valid msg then
              if std_msgs.data (motors_halted msg) then Error else Ok
            else Stale;
          PR2Motors.toolTip :=
            if motors_halted_valid msg then
              if std_msgs.data (motors_halted msg) then "Motors: Halted"
              else "Motors: Running"
            else "Motors: Stale" |};
     _breakers :=
       map (fun breaker =>
              {| PR2BreakerButton.name := PR2BreakerButton.name breaker;
                 PR2BreakerButton.index := PR2BreakerButton.index breaker;
                 PR2BreakerButton.view :=
                   if power_board_state_valid msg
                   then PR2BreakerButton.Board (power_board_state msg)
                   else PR2BreakerButton.Default |})
           (_breakers self);
     _runstop :=
       {| PR2Runstops.name := PR2Runstops.name (_runstop self);
          PR2Runstops.state :=
            if power_board_state_valid msg then
              if wireless_stop (power_board_state msg) then
                if run_stop (power_board_state msg) then PR2Runstops.Ok
                else PR2Runstops.PhysicalEngaged
              else PR2Runstops.WirelessEngaged
            else PR2Runstops.Stale;
          PR2Runstops.toolTip :=
            if power_board_state_valid msg then
              if wireless_stop (power_board_state msg) then
                if run_stop (power_board_state msg)
                then "Physical Runstop: OK" ++ nl ++ "Wireless Runstop: OK"
                else "Physical Runstop: Pressed" ++ nl ++ "Wireless Runstop: OK"
              else "Physical Runstop: Unknown" ++ nl ++ "Wireless Runstop: Pressed"
            else "Physical Runstop: Stale" ++ nl ++ "Wireless Runstop: Stale" |};
     _batteries :=
       match _batteries self with
       | [] => []
       | _ :: rest =>
           (if power_state_valid msg then PR2Battery.Power (power_state msg)
            else PR2Battery.Stale) :: rest
       end;
     _dashboard_agg_sub := _dashboard_agg_sub self |}.
End Life.

Module Edge.
(** A panel object that has lost its battery widget. *)
Definition no_battery_panel : PR2Dashboard Z :=
  set_batteries [] Sample.fresh_panel.

(** A world in which every service call is interrupted by the shutdown of
    the node. *)
Definition interrupted_world : World :=
  {| get_time := 3%Q;
     question_reply := QMessageBox.No;
     service_result :=
       fun _ => Some (OtherException "ROSInterruptException" "rospy shutdown") |}.

(** Motors halted, both runstops released, every breaker ON (with ON = 3). *)
Definition halted_status : DashboardState Z :=
  Sample.status true true true true true [3; 3; 3]%Z true.

(** The panel [setup] builds when the parser has set the motor namespace to
    [base_ethercat]. *)
Definition base_ethercat_panel : PR2Dashboard Z :=
  match setup Z Sample.parse_base_ethercat
              ["--motor-namespace=base_ethercat"] with
  | Return self => self
  | Raise _ => Sample.fresh_panel
  end.
End Edge.

(** * Properties of the panel *)

Section Callback.
Variable PowerState : Type.
Implicit Types (self : PR2Dashboard PowerState) (w : World)
  (msg : DashboardState PowerState).

Ltac open_message msg :=
  destruct msg as [[?halted] ?halted_valid [?run ?wireless ?circuit]
                   ?board_valid ?power ?power_valid].

Ltac open_panel self :=
  destruct self as [?name ?size ?message ?namespace ?status ?time ?raw ?outs
                    ?motors ?breakers ?runstop ?batteries ?sub].

Ltac all_flags :=
  repeat match goal with
         | b : bool |- _ => destruct b
         end.

(** ** The panel invariant *)

Lemma panel_ok_widgets self :
  panel_ok self = true ->
  (exists left base right, _breakers self = [left; base; right])
  /\ exists battery, _batteries self = [battery].
Proof.
  unfold panel_ok. intros H.
  apply andb_true_iff in H. destruct H as [Hbr Hbat].
  apply Nat.eqb_eq in Hbr, Hbat. split.
  - destruct (_breakers self) as [|b0 [|b1 [|b2 [|b3 r]]]]; try discriminate.
    now exists b0, b1, b2.
  - destruct (_batteries self) as [|b [|b' r]]; try discriminate.
    now exists b.
Qed.

Lemma setup_panel_ok parse_args argv self :
  setup PowerState parse_args argv = Return self -> panel_ok self = true.
Proof.
  unfold setup. intros H.
  destruct (parse_args _ argv) as [args|e]; [|discriminate].
  destruct (argparse.getattr args "motor_namespace") as [ns|e]; [|discriminate].
  injection H as <-. reflexivity.
Qed.

(** ** What the callback writes *)

Lemma dashboard_callback_returns msg w self battery rest :
  _batteries self = battery :: rest ->
  outcome (dashboard_callback msg w self) = Return tt
  /\ trace (dashboard_callback msg w self) = [].
Proof.
  intros Hbat. open_message msg. open_panel self. simpl in Hbat. subst.
  all_flags; split; reflexivity.
Qed.

Lemma dashboard_callback_no_battery msg w self :
  _batteries self = [] ->
  outcome (dashboard_callback msg w self)
  = Raise (IndexError "list index out of range").
Proof.
  intros Hbat. open_message msg. open_panel self. simpl in Hbat. subst.
  all_flags; reflexivity.
Qed.

Lemma dashboard_callback_breakers msg w self :
  _breakers (self_after (dashboard_callback msg w self)) =
  match _batteries self with
  | [] => _breakers self
  | _ :: _ =>
      map (if power_board_state_valid msg
           then PR2BreakerButton.set_power_board_state_msg (power_board_state msg)
           else PR2BreakerButton.reset)
          (_breakers self)
  end.
Proof.
  open_message msg. open_panel self. destruct batteries; all_flags; reflexivity.
Qed.

Lemma dashboard_callback_batteries msg w self :
  _batteries (self_after (dashboard_callback msg w self)) =
  match _batteries self with
  | [] => []
  | battery :: rest =>
      (if power_state_valid msg
       then PR2Battery.set_power_state (power_state msg) battery
       else PR2Battery.set_stale battery) :: rest
  end.
Proof.
  open_message msg. open_panel self. destruct batteries; all_flags; reflexivity.
Qed.

Lemma dashboard_callback_status msg w self :
  _dashboard_message (self_after (dashboard_callback msg w self)) = Some msg
  /\ _last_dashboard_message_time (self_after (dashboard_callback msg w self))
     = get_time w.
Proof.
  open_message msg. open_panel self.
  destruct batteries; all_flags; split; reflexivity.
Qed.

Lemma dashboard_callback_frame msg w self :
  let self' := self_after (dashboard_callback msg w self) in
  name self' = name self
  /\ max_icon_size self' = max_icon_size self
  /\ message self' = message self
  /\ _motor_namespace self' = _motor_namespace self
  /\ _raw_byte self' = _raw_byte self
  /\ digital_outs self' = digital_outs self
  /\ _dashboard_agg_sub self' = _dashboard_agg_sub self.
Proof.
  open_message msg. open_panel self.
  destruct batteries; all_flags; repeat split; reflexivity.
Qed.

Lemma dashboard_callback_panel_ok msg w self :
  panel_ok self = true ->
  panel_ok (self_after (dashboard_callback msg w self)) = true.
Proof.
  intros Hok. destruct (panel_ok_widgets self Hok) as [(l & b & r & Hbr) (bat & Hbat)].
  unfold panel_ok.
  rewrite dashboard_callback_breakers, dashboard_callback_batteries, Hbat, Hbr.
  destruct (power_board_state_valid msg); reflexivity.
Qed.

(** ** The status mapper, indicator by indicator *)

Lemma dashboard_callback_motors msg w self :
  _motors (self_after (dashboard_callback msg w self)) =
  PR2Motors.setToolTip
    (if motors_halted_valid msg then
       if std_msgs.data (motors_halted msg) then "Motors: Halted"
       else "Motors: Running"
     else "Motors: Stale")
    ((if motors_halted_valid msg then
        if std_msgs.data (motors_halted msg) then PR2Motors.set_error
        else PR2Motors.set_ok
      else PR2Motors.set_stale) (_motors self)).
Proof.
  open_message msg. open_panel self.
  destruct batteries; all_flags; reflexivity.
Qed.

(** C4.  For every message the motor indicator ends as follows: Stale with
    tooltip "Motors: Stale" when [motors_halted_valid] is false, whatever
    [motors_halted] says; Error with tooltip "Motors: Halted" when the flag is
    valid and the motors are halted; Ok with tooltip "Motors: Running" when
    it is valid and they are not. *)
Theorem motor_indicator_mapping msg w self :
  _motors (self_after (dashboard_callback msg w self)) =
  if motors_halted_valid msg then
    if std_msgs.data (motors_halted msg)
    then {| PR2Motors.state := Error; PR2Motors.toolTip := "Motors: Halted" |}
    else {| PR2Motors.state := Ok; PR2Motors.toolTip := "Motors: Running" |}
  else {| PR2Motors.state := Stale; PR2Motors.toolTip := "Motors: Stale" |}.
Proof.
  open_message msg. open_panel self.
  destruct batteries; all_flags; reflexivity.
Qed.

(** C7.  On a panel with its battery widget the callback returns, and the
    battery indicator receives [set_power_state] with the message's
    [power_state] as it is when [power_state_valid] holds, and is set to
    Stale otherwise. *)
Theorem battery_indicator_mapping msg w self :
  panel_ok self = true ->
  outcome (dashboard_callback msg w self) = Return tt
  /\ exists battery,
       _batteries self = [battery]
       /\ _batteries (self_after (dashboard_callback msg w self)) =
          [if power_state_valid msg
           then PR2Battery.set_power_state (power_state msg) battery
           else PR2Battery.Stale].
Proof.
  intros Hok. destruct (panel_ok_widgets self Hok) as [_ (battery & Hbat)].
  split.
  - apply (dashboard_callback_returns msg w self Hbat).
  - exists battery. split; [exact Hbat|].
    rewrite dashboard_callback_batteries, Hbat. reflexivity.
Qed.

(** C1.  For every message whose power-board section is valid, the runstop
    indicator ends as the three tests in sequence leave it: (run_stop,
    wireless_stop) = (true, true) gives Ok, "Physical Runstop: OK" over
    "Wireless Runstop: OK"; (true, false) is set Ok first and then
    overwritten to wireless-engaged, "Physical Runstop: Unknown" over
    "Wireless Runstop: Pressed"; (false, true) gives physical-engaged,
    "Physical Runstop: Pressed" over "Wireless Runstop: OK"; (false, false)
    gives wireless-engaged with the Unknown/Pressed tooltip.  The two lines
    of a tooltip are separated by a line break. *)
Theorem runstop_sequential_overwrite msg w self :
  panel_ok self = true ->
  power_board_state_valid msg = true ->
  let shown := _runstop (self_after (dashboard_callback msg w self)) in
  (PR2Runstops.state shown, PR2Runstops.toolTip shown) =
    match run_stop (power_board_state msg),
          wireless_stop (power_board_state msg) with
    | true, true =>
        (PR2Runstops.Ok,
         ("Physical Runstop: OK" ++ nl ++ "Wireless Runstop: OK")%string)
    | true, false =>
        (PR2Runstops.WirelessEngaged,
         ("Physical Runstop: Unknown" ++ nl ++ "Wireless Runstop: Pressed")%string)
    | false, true =>
        (PR2Runstops.PhysicalEngaged,
         ("Physical Runstop: Pressed" ++ nl ++ "Wireless Runstop: OK")%string)
    | false, false =>
        (PR2Runstops.WirelessEngaged,
         ("Physical Runstop: Unknown" ++ nl ++ "Wireless Runstop: Pressed")%string)
    end
  /\ (run_stop (power_board_state msg) = true ->
      wireless_stop (power_board_state msg) = false ->
      shown =
      PR2Runstops.setToolTip
        (("Physical Runstop: Unknown" ++ nl ++ "Wireless Runstop: Pressed")%string)
        (PR2Runstops.set_wireless_engaged
           (PR2Runstops.setToolTip
              (("Physical Runstop: OK" ++ nl ++ "Wireless Runstop: OK")%string)
              (PR2Runstops.set_ok (_runstop self))))).
Proof.
  intros Hok Hvalid.
  destruct (panel_ok_widgets self Hok) as [_ (battery & Hbat)].
  open_message msg. open_panel self. simpl in Hbat, Hvalid. subst.
  all_flags; split; try reflexivity; intros; discriminate.
Qed.

(** C5.  For every message whose power-board section is not valid, each of
    the three breaker indicators is reset to its default state, none receives
    the power-board state, and the runstop indicator is Stale with the tooltip
    "Physical Runstop: Stale" over "Wireless Runstop: Stale". *)
Theorem power_board_invalid_resets msg w self :
  panel_ok self = true ->
  power_board_state_valid msg = false ->
  let self' := self_after (dashboard_callback msg w self) in
  (exists left base right,
     _breakers self = [left; base; right]
     /\ _breakers self' = [PR2BreakerButton.reset left;
                           PR2BreakerButton.reset base;
                           PR2BreakerButton.reset right])
  /\ (forall breaker, In breaker (_breakers self') ->
        PR2BreakerButton.view breaker = PR2BreakerButton.Default)
  /\ PR2Runstops.state (_runstop self') = PR2Runstops.Stale
  /\ PR2Runstops.toolTip (_runstop self')
     = ("Physical Runstop: Stale" ++ nl ++ "Wireless Runstop: Stale")%string.
Proof.
  intros Hok Hvalid self'.
  destruct (panel_ok_widgets self Hok) as [(l & b & r & Hbr) (battery & Hbat)].
  assert (Hreset : _breakers self' = map PR2BreakerButton.reset (_breakers self)).
  { unfold self'. rewrite dashboard_callback_breakers, Hbat, Hvalid. reflexivity. }
  split; [|split].
  - exists l, b, r. split; [exact Hbr|]. rewrite Hreset, Hbr. reflexivity.
  - intros breaker Hin. rewrite Hreset in Hin.
    apply in_map_iff in Hin. destruct Hin as (old & <- & _). reflexivity.
  - unfold self'. clear Hreset self'.
    open_message msg. open_panel self. simpl in Hbat, Hvalid. subst.
    all_flags; split; reflexivity.
Qed.

(** C6.  Delivering the same message twice in a row shows what delivering
    it once shows: after the second delivery the motor, breaker, runstop and
    battery indicators, with their tooltips, are what they were after the
    first. *)
Theorem dashboard_callback_idempotent msg w1 w2 self :
  let once := self_after (dashboard_callback msg w1 self) in
  let twice := self_after (dashboard_callback msg w2 once) in
  _motors twice = _motors once
  /\ _breakers twice = _breakers once
  /\ _runstop twice = _runstop once
  /\ _batteries twice = _batteries once.
Proof.
  intros once twice. unfold twice.
  split; [|split; [|split]].
  - unfold once. rewrite !dashboard_callback_motors.
    destruct (motors_halted_valid msg), (std_msgs.data (motors_halted msg));
      reflexivity.
  - rewrite dashboard_callback_breakers. unfold once.
    rewrite dashboard_callback_batteries, dashboard_callback_breakers.
    destruct (_batteries self); [reflexivity|].
    rewrite map_map. apply map_ext. intros breaker.
    destruct (power_board_state_valid msg); reflexivity.
  - unfold once. open_message msg. open_panel self.
    destruct batteries; all_flags; reflexivity.
  - rewrite dashboard_callback_batteries. unfold once.
    rewrite dashboard_callback_batteries.
    destruct (_batteries self); [reflexivity|].
    destruct (power_state_valid msg); reflexivity.
Qed.
End Callback.

(** * The command dispatcher *)

Section Commands.
Variable PowerState : Type.
Variable STATE_ON : Z.
Implicit Types (self : PR2Dashboard PowerState) (w : World).

Ltac open_panel self :=
  destruct self as [?name ?size ?message ?namespace ?status ?time ?raw ?outs
                    ?motors ?breakers ?runstop ?batteries ?sub].

Ltac run_monad :=
  cbv [try_except bind get rospy.call emit ask ret raise outcome self_after
       trace rospy.name rospy.service_class critical question getitem
       nth_error for_each PR2BreakerButton.set_enable QMessageBox.eqb negb
       andb app map].

(** ** The breaker check *)

Lemma fold_left_and (flags : list bool) (first : bool) :
  fold_left (fun x y => x && y) flags first = first && forallb (fun b => b) flags.
Proof.
  revert first. induction flags as [|flag flags IH]; intros first; simpl.
  - now rewrite andb_true_r.
  - rewrite IH. now rewrite andb_assoc.
Qed.

Lemma reduce_and_all_on (state : Z) (rest : list Z) :
  fold_left (fun x y => x && y)
            (map (fun state => Z.eqb state STATE_ON) rest)
            (Z.eqb state STATE_ON)
  = all_on STATE_ON (state :: rest).
Proof.
  rewrite fold_left_and. unfold all_on. simpl. f_equal.
  induction rest as [|s rest IH]; simpl; [reflexivity|]. now rewrite IH.
Qed.

(** ** What [on_halt_motors] and [on_reset_motors] do *)

Lemma on_halt_motors_run w self :
  on_halt_motors w self =
  {| outcome := call_outcome (service_result w (halt_motors_service self));
     self_after := self;
     trace :=
       ServiceCall (halt_motors_service self) "std_srvs/Empty" []
       :: failure_dialog MotorsRef "halt"
            (service_result w (halt_motors_service self)) |}.
Proof.
  unfold on_halt_motors, halt_motors_service, format.
  run_monad.
  destruct (service_result w (_motor_namespace self ++ "/halt_motors")) as [[]|];
    reflexivity.
Qed.

(** The dialog and the enable requests that come before the remote call. *)
Lemma on_reset_motors_run w self :
  panel_ok self = true ->
  circuit_state_present self = true ->
  on_reset_motors STATE_ON w self =
  {| outcome := call_outcome (service_result w (reset_motors_service self));
     self_after := self;
     trace :=
       (if needs_confirmation STATE_ON self then
          enable_breakers_question
          :: (if QMessageBox.eqb (question_reply w) QMessageBox.Yes
              then map (fun breaker => EnableRequest (PR2BreakerButton.index breaker))
                       (_breakers self)
              else [])
        else [])
       ++ ServiceCall (reset_motors_service self) "std_srvs/Empty" []
          :: failure_dialog (BreakerRef 0) "reset"
               (service_result w (reset_motors_service self)) |}.
Proof.
  intros Hok Hpresent.
  destruct (panel_ok_widgets self Hok) as [(l & b & r & Hbr) _].
  unfold on_reset_motors, needs_confirmation, circuit_state_present,
    reset_motors_service, format in *.
  unfold bind at 1. unfold get at 1. cbv [outcome self_after trace].
  rewrite Hbr.
  destruct (_dashboard_message self) as [status|];
    [destruct (power_board_state_valid status);
     [destruct (circuit_state (power_board_state status)) as [|state rest];
      [discriminate|];
      unfold reduce; cbv [map]; rewrite reduce_and_all_on;
      destruct (all_on STATE_ON (state :: rest))
     |]
    |];
    run_monad;
    try destruct (question_reply w);
    destruct (service_result w (_motor_namespace self ++ "/reset_motors"))
      as [[]|]; reflexivity.
Qed.

Lemma on_reset_motors_no_circuit_state w self status :
  _dashboard_message self = Some status ->
  power_board_state_valid status = true ->
  circuit_state (power_board_state status) = [] ->
  on_reset_motors STATE_ON w self =
  {| outcome :=
       Raise (TypeError "reduce() of empty sequence with no initial value");
     self_after := self;
     trace := [] |}.
Proof.
  intros Hmsg Hvalid Hempty.
  unfold on_reset_motors.
  unfold bind at 1. unfold get at 1. cbv [outcome self_after trace].
  rewrite Hmsg, Hvalid, Hempty. reflexivity.
Qed.

Lemma circuit_state_absent self :
  circuit_state_present self = false ->
  exists status,
    _dashboard_message self = Some status
    /\ power_board_state_valid status = true
    /\ circuit_state (power_board_state status) = []
    /\ needs_confirmation STATE_ON self = false.
Proof.
  unfold circuit_state_present, needs_confirmation.
  destruct (_dashboard_message self) as [status|]; [|discriminate].
  destruct (power_board_state_valid status) eqn:Hvalid; [|discriminate].
  destruct (circuit_state (power_board_state status)) eqn:Hcircuit;
    [|discriminate].
  intros _. exists status.
  split; [reflexivity|]. split; [exact Hvalid|].
  split; [exact Hcircuit | reflexivity].
Qed.

(** ** The two commands *)

(** C10.  [on_halt_motors] leaves the panel object as it found it, whether
    the remote call returns, fails or raises something else: the last
    status, its time stamp and every indicator are untouched.  All it does
    is the one remote call and, when that fails, the error dialog. *)
Theorem on_halt_motors_changes_no_state w self :
  self_after (on_halt_motors w self) = self
  /\ trace (on_halt_motors w self) =
     ServiceCall (_motor_namespace self ++ "/halt_motors") "std_srvs/Empty" []
     :: match service_result w (_motor_namespace self ++ "/halt_motors") with
        | Some (ServiceException e) =>
            [Critical MotorsRef "Error"
               ("Failed to halt the motors: service call failed with error: "
                ++ e)]
        | _ => []
        end.
Proof.
  rewrite on_halt_motors_run. split; [reflexivity|]. cbv [trace].
  unfold halt_motors_service.
  destruct (service_result w (_motor_namespace self ++ "/halt_motors"))
    as [[]|]; reflexivity.
Qed.

(** C3.  When the remote call of [on_halt_motors] or of [on_reset_motors]
    fails with a service exception, the handler returns normally, the trace
    holds exactly one error dialog, which names the action and carries the
    error text, the service was called exactly once, and the panel object
    (every indicator and the last status) is what it was before. *)
Theorem remote_failure_one_error_dialog w self e :
  (service_result w (halt_motors_service self) = Some (ServiceException e) ->
   let run := on_halt_motors w self in
   outcome run = Return tt
   /\ filter is_critical (trace run) =
      [Critical MotorsRef "Error"
         ("Failed to halt the motors: service call failed with error: " ++ e)]
   /\ filter is_service_call (trace run) =
      [ServiceCall (halt_motors_service self) "std_srvs/Empty" []]
   /\ self_after run = self)
  /\ (panel_ok self = true ->
      circuit_state_present self = true ->
      service_result w (reset_motors_service self) = Some (ServiceException e) ->
      let run := on_reset_motors STATE_ON w self in
      outcome run = Return tt
      /\ filter is_critical (trace run) =
         [Critical (BreakerRef 0) "Error"
            ("Failed to reset the motors: service call failed with error: "
             ++ e)]
      /\ filter is_service_call (trace run) =
         [ServiceCall (reset_motors_service self) "std_srvs/Empty" []]
      /\ self_after run = self).
Proof.
  split.
  - intros Hfail run. unfold run. rewrite on_halt_motors_run, Hfail.
    repeat split; reflexivity.
  - intros Hok Hpresent Hfail run. unfold run.
    rewrite (on_reset_motors_run w self Hok Hpresent), Hfail.
    destruct (panel_ok_widgets self Hok) as [(l & b & r & ->) _].
    destruct (needs_confirmation STATE_ON self), (question_reply w);
      repeat split; reflexivity.
Qed.

(** C2.  [on_reset_motors] asks the yes/no question, with Yes as the
    default button, exactly when a last status exists, its power-board
    section is valid and not every circuit state is ON; when the user
    answers Yes every breaker button gets an enable request, which is no
    remote call; and the reset service is then called once, without
    arguments, in every case, also with no status at all, in which nothing
    is asked.  The call is reached on every status that lists a circuit
    state, as the three-entry circuit state of the message does. *)
Theorem reset_motors_prompt_then_call w self :
  panel_ok self = true ->
  let run := on_reset_motors STATE_ON w self in
  existsb is_question (trace run) = needs_confirmation STATE_ON self
  /\ (forall ev, In ev (trace run) -> is_question ev = true ->
      ev = Question (BreakerRef 0) "Enable Breakers?"
             "Resetting the motors may not work because not all breakers are enabled.  Enable all the breakers first?"
             [QMessageBox.Yes; QMessageBox.No] QMessageBox.Yes)
  /\ (needs_confirmation STATE_ON self = true ->
      question_reply w = QMessageBox.Yes ->
      forall breaker, In breaker (_breakers self) ->
        In (EnableRequest (PR2BreakerButton.index breaker)) (trace run))
  /\ (circuit_state_present self = true ->
      trace run =
        (if needs_confirmation STATE_ON self then
           Question (BreakerRef 0) "Enable Breakers?"
             "Resetting the motors may not work because not all breakers are enabled.  Enable all the breakers first?"
             [QMessageBox.Yes; QMessageBox.No] QMessageBox.Yes
           :: (if QMessageBox.eqb (question_reply w) QMessageBox.Yes
               then map (fun breaker =>
                           EnableRequest (PR2BreakerButton.index breaker))
                        (_breakers self)
               else [])
         else [])
        ++ ServiceCall (_motor_namespace self ++ "/reset_motors")
                       "std_srvs/Empty" []
           :: failure_dialog (BreakerRef 0) "reset"
                (service_result w (reset_motors_service self))
      /\ filter is_service_call (trace run) =
         [ServiceCall (_motor_namespace self ++ "/reset_motors")
                      "std_srvs/Empty" []])
  /\ (_dashboard_message self = None ->
      existsb is_question (trace run) = false
      /\ In (ServiceCall (_motor_namespace self ++ "/reset_motors")
                         "std_srvs/Empty" [])
            (trace run)).
Proof.
  intros Hok run. unfold run.
  destruct (circuit_state_present self) eqn:Hpresent.
  - rewrite (on_reset_motors_run w self Hok Hpresent). cbv [trace].
    destruct (panel_ok_widgets self Hok) as [(l & b & r & Hbr) _].
    assert (Hnone : _dashboard_message self = None ->
                    needs_confirmation STATE_ON self = false).
    { unfold needs_confirmation. now intros ->. }
    rewrite Hbr. unfold reset_motors_service.
    destruct (service_result w (_motor_namespace self ++ "/reset_motors"))
      as [[]|];
      (destruct (needs_confirmation STATE_ON self);
       [destruct (question_reply w)|]);
      (split; [reflexivity|]);
      (split; [intros ev Hin Hq; simpl in Hin;
               repeat (destruct Hin as [<-|Hin]; try discriminate Hq;
                       try reflexivity);
               destruct Hin|]);
      (split; [intros Hasked Hyes breaker Hin;
               try discriminate Hasked; try discriminate Hyes;
               simpl in Hin; simpl; intuition (subst; auto)|]);
      (split; [intros _; split; reflexivity|]);
      intros Hmsg; (split; [|simpl; auto]);
      try reflexivity; now specialize (Hnone Hmsg).
  - destruct (circuit_state_absent self Hpresent)
      as (status & Hmsg & Hvalid & Hempty & Hquiet).
    rewrite (on_reset_motors_no_circuit_state w self Hmsg Hvalid Hempty).
    cbv [trace]. rewrite Hquiet.
    split; [reflexivity|].
    split; [intros ev []|].
    split; [discriminate|].
    split; [discriminate|].
    rewrite Hmsg. discriminate.
Qed.

(** C9.  The breaker check of [on_reset_motors] is a fold of [and] that
    starts from the first entry.  With a last status whose power-board
    section is valid: on a circuit state with at least one entry the check
    is the conjunction of "entry equals ON" over all entries, and the
    handler asks exactly when that conjunction is false and goes on to the
    remote call; on an empty circuit state the handler raises at the fold,
    before any dialog and before the remote call. *)
Theorem breaker_check_fold_without_initial w self :
  (forall state rest,
     reduce (fun x y => x && y)
            (map (fun state => Z.eqb state STATE_ON) (state :: rest)) w self =
     {| outcome := Return (forallb (fun s => Z.eqb s STATE_ON) (state :: rest));
        self_after := self;
        trace := [] |})
  /\ (forall status state rest,
        panel_ok self = true ->
        _dashboard_message self = Some status ->
        power_board_state_valid status = true ->
        circuit_state (power_board_state status) = state :: rest ->
        on_reset_motors STATE_ON w self =
        {| outcome :=
             call_outcome (service_result w (reset_motors_service self));
           self_after := self;
           trace :=
             (if forallb (fun s => Z.eqb s STATE_ON) (state :: rest) then []
              else
                Question (BreakerRef 0) "Enable Breakers?"
                  "Resetting the motors may not work because not all breakers are enabled.  Enable all the breakers first?"
                  [QMessageBox.Yes; QMessageBox.No] QMessageBox.Yes
                :: (if QMessageBox.eqb (question_reply w) QMessageBox.Yes
                    then map (fun breaker =>
                                EnableRequest (PR2BreakerButton.index breaker))
                             (_breakers self)
                    else []))
             ++ ServiceCall (_motor_namespace self ++ "/reset_motors")
                            "std_srvs/Empty" []
                :: failure_dialog (BreakerRef 0) "reset"
                     (service_result w (reset_motors_service self)) |})
  /\ (forall status,
        _dashboard_message self = Some status ->
        power_board_state_valid status = true ->
        circuit_state (power_board_state status) = [] ->
        on_reset_motors STATE_ON w self =
        {| outcome :=
             Raise (TypeError "reduce() of empty sequence with no initial value");
           self_after := self;
           trace := [] |}).
Proof.
  split; [|split].
  - intros state rest. unfold reduce. cbv [map].
    fold (map (fun s => Z.eqb s STATE_ON) rest).
    rewrite reduce_and_all_on. reflexivity.
  - intros status state rest Hok Hmsg Hvalid Hcircuit.
    assert (Hpresent : circuit_state_present self = true).
    { unfold circuit_state_present. now rewrite Hmsg, Hvalid, Hcircuit. }
    rewrite (on_reset_motors_run w self Hok Hpresent).
    unfold needs_confirmation, all_on.
    rewrite Hmsg, Hvalid, Hcircuit. cbn [andb].
    destruct (forallb (fun s => Z.eqb s STATE_ON) (state :: rest));
      reflexivity.
  - intros status. apply on_reset_motors_no_circuit_state.
Qed.

End Commands.

(** * The properties at sample inputs *)

Lemma battery_indicator_mapping_witness :
  panel_ok Sample.fresh_panel = true
  /\ _batteries (Sample.panel_with Sample.standby_status)
     = [PR2Battery.Power 87%Z].
Proof.
  split; [reflexivity|].
  destruct (battery_indicator_mapping Sample.standby_status Sample.quiet_world
              Sample.fresh_panel eq_refl) as [_ (battery & _ & Hshown)].
  exact Hshown.
Defined.

Lemma runstop_sequential_overwrite_witness :
  panel_ok Sample.fresh_panel = true
  /\ power_board_state_valid Sample.standby_status = true
  /\ (PR2Runstops.state (_runstop (Sample.panel_with Sample.standby_status)),
      PR2Runstops.toolTip (_runstop (Sample.panel_with Sample.standby_status)))
     = (PR2Runstops.WirelessEngaged,
        ("Physical Runstop: Unknown" ++ nl ++ "Wireless Runstop: Pressed")%string).
Proof.
  split; [reflexivity|]. split; [reflexivity|].
  exact (proj1 (runstop_sequential_overwrite Sample.standby_status
                  Sample.quiet_world Sample.fresh_panel eq_refl eq_refl)).
Defined.

Lemma power_board_invalid_resets_witness :
  panel_ok (Sample.panel_with Sample.standby_status) = true
  /\ power_board_state_valid Sample.stale_status = false
  /\ PR2Runstops.state
       (_runstop (self_after (dashboard_callback Sample.stale_status
                                Sample.quiet_world
                                (Sample.panel_with Sample.standby_status))))
     = PR2Runstops.Stale.
Proof.
  split; [reflexivity|]. split; [reflexivity|].
  exact (proj1 (proj2 (proj2
           (power_board_invalid_resets Sample.stale_status Sample.quiet_world
              (Sample.panel_with Sample.standby_status) eq_refl eq_refl)))).
Defined.

Lemma reset_motors_prompt_then_call_witness :
  panel_ok (Sample.panel_with Sample.standby_status) = true
  /\ circuit_state_present (Sample.panel_with Sample.standby_status) = true
  /\ trace (on_reset_motors 3 Sample.failing_world
              (Sample.panel_with Sample.standby_status))
     = [Question (BreakerRef 0) "Enable Breakers?"
          "Resetting the motors may not work because not all breakers are enabled.  Enable all the breakers first?"
          [QMessageBox.Yes; QMessageBox.No] QMessageBox.Yes;
        EnableRequest 0; EnableRequest 1; EnableRequest 2;
        ServiceCall "pr2_ethercat/reset_motors" "std_srvs/Empty" [];
        Critical (BreakerRef 0) "Error"
          "Failed to reset the motors: service call failed with error: unable to connect"].
Proof.
  split; [reflexivity|]. split; [reflexivity|].
  destruct (reset_motors_prompt_then_call 3 Sample.failing_world
              (Sample.panel_with Sample.standby_status) eq_refl)
    as (_ & _ & _ & Hcall & _).
  exact (proj1 (Hcall eq_refl)).
Defined.

Lemma remote_failure_one_error_dialog_witness :
  service_result Sample.failing_world
    (reset_motors_service (Sample.panel_with Sample.standby_status))
  = Some (ServiceException "unable to connect")
  /\ outcome (on_reset_motors 3 Sample.failing_world
                (Sample.panel_with Sample.standby_status))
     = Return tt
  /\ filter is_critical
       (trace (on_reset_motors 3 Sample.failing_world
                 (Sample.panel_with Sample.standby_status)))
     = [Critical (BreakerRef 0) "Error"
          "Failed to reset the motors: service call failed with error: unable to connect"].
Proof.
  split; [reflexivity|].
  destruct (proj2 (remote_failure_one_error_dialog 3 Sample.failing_world
                     (Sample.panel_with Sample.standby_status)
                     "unable to connect")
                  eq_refl eq_refl eq_refl) as (Hreturns & Hdialog & _).
  split; [exact Hreturns | exact Hdialog].
Defined.

Lemma breaker_check_fold_without_initial_witness :
  _dashboard_message (Sample.panel_with Sample.no_circuit_status)
  = Some Sample.no_circuit_status
  /\ on_reset_motors 3 Sample.failing_world
       (Sample.panel_with Sample.no_circuit_status)
     = {| outcome :=
            Raise (TypeError "reduce() of empty sequence with no initial value");
          self_after := Sample.panel_with Sample.no_circuit_status;
          trace := [] |}.
Proof.
  split; [reflexivity|].
  exact (proj2 (proj2
           (breaker_check_fold_without_initial 3 Sample.failing_world
              (Sample.panel_with Sample.no_circuit_status)))
           Sample.no_circuit_status eq_refl eq_refl eq_refl).
Defined.

(** * More of the panel's behaviour *)

Section Behaviour.
Variable PowerState : Type.
Variable STATE_ON : Z.
Implicit Types (self : PR2Dashboard PowerState) (w : World)
  (msg : DashboardState PowerState).

Ltac open_message msg :=
  destruct msg as [[?halted] ?halted_valid [?run ?wireless ?circuit]
                   ?board_valid ?power ?power_valid].

Ltac open_panel self :=
  destruct self as [?name ?size ?message ?namespace ?status ?time ?raw ?outs
                    ?motors ?breakers ?runstop ?batteries ?sub].

Ltac all_flags :=
  repeat match goal with
         | b : bool |- _ => destruct b
         end.

Lemma dashboard_callback_closed_form msg w self battery rest :
  _batteries self = battery :: rest ->
  dashboard_callback msg w self =
  {| outcome := Return tt;
     self_after := panel_after msg (get_time w) self;
     trace := [] |}.
Proof.
  intros Hbat. open_message msg. open_panel self. simpl in Hbat. subst.
  all_flags; reflexivity.
Qed.

(** ** The status mapper as a whole *)

(** X1.  The last status wins: on a panel with its widgets, what a status
    leaves behind does not depend on the status delivered before it. *)
Theorem last_status_wins msg1 msg2 w1 w2 self :
  panel_ok self = true ->
  self_after (dashboard_callback msg2 w2
                (self_after (dashboard_callback msg1 w1 self)))
  = self_after (dashboard_callback msg2 w2 self).
Proof.
  intros Hok. destruct (panel_ok_widgets self Hok) as [_ (battery & Hbat)].
  rewrite (dashboard_callback_closed_form msg1 w1 self Hbat). cbv [self_after].
  assert (Hbat1 : _batteries (panel_after msg1 (get_time w1) self)
                  = (if power_state_valid msg1
                     then PR2Battery.Power (power_state msg1)
                     else PR2Battery.Stale) :: []).
  { unfold panel_after. cbn [_batteries]. now rewrite Hbat. }
  rewrite (dashboard_callback_closed_form msg2 w2 _ Hbat1).
  rewrite (dashboard_callback_closed_form msg2 w2 self Hbat). cbv [self_after].
  unfold panel_after at 1 3.
  cbn [name max_icon_size message _motor_namespace _raw_byte digital_outs
       _dashboard_agg_sub _runstop PR2Runstops.name].
  rewrite Hbat1, Hbat. f_equal.
  unfold panel_after. cbn [_breakers]. rewrite map_map. reflexivity.
Qed.

(** X2.  On a panel with its widgets the callback returns, shows no dialog
    and calls no service, remembers the message and the time of receipt,
    and leaves the motor namespace, the panel name and the subscription as
    they were. *)
Theorem dashboard_callback_silent msg w self :
  panel_ok self = true ->
  let run := dashboard_callback msg w self in
  outcome run = Return tt
  /\ trace run = []
  /\ _dashboard_message (self_after run) = Some msg
  /\ _last_dashboard_message_time (self_after run) = get_time w
  /\ _motor_namespace (self_after run) = _motor_namespace self
  /\ name (self_after run) = name self
  /\ _dashboard_agg_sub (self_after run) = _dashboard_agg_sub self
  /\ panel_ok (self_after run) = true.
Proof.
  intros Hok run. unfold run.
  destruct (panel_ok_widgets self Hok) as [(l & b & r & Hbr) (battery & Hbat)].
  rewrite (dashboard_callback_closed_form msg w self Hbat).
  repeat split.
  unfold panel_ok, panel_after. cbn [_breakers _batteries self_after].
  rewrite Hbr, Hbat. reflexivity.
Qed.

(** X3.  When the power-board section is valid, each of the three breaker
    buttons receives the whole power-board state of the message, and keeps
    its label and its circuit index. *)
Theorem power_board_valid_reaches_every_breaker msg w self :
  panel_ok self = true ->
  power_board_state_valid msg = true ->
  let self' := self_after (dashboard_callback msg w self) in
  _breakers self'
  = map (PR2BreakerButton.set_power_board_state_msg (power_board_state msg))
        (_breakers self)
  /\ List.length (_breakers self') = 3%nat
  /\ map breaker_label (_breakers self') = map breaker_label (_breakers self)
  /\ forall breaker, In breaker (_breakers self') ->
       PR2BreakerButton.view breaker
       = PR2BreakerButton.Board (power_board_state msg).
Proof.
  intros Hok Hvalid self'.
  destruct (panel_ok_widgets self Hok) as [(l & b & r & Hbr) (battery & Hbat)].
  assert (Hset : _breakers self'
                 = map (PR2BreakerButton.set_power_board_state_msg
                          (power_board_state msg)) (_breakers self)).
  { unfold self'. rewrite dashboard_callback_breakers, Hbat, Hvalid.
    reflexivity. }
  rewrite Hset, Hbr. repeat split.
  intros breaker Hin. simpl in Hin.
  destruct Hin as [<-|[<-|[<-|[]]]]; reflexivity.
Qed.

(** X4.  After a status the runstop indicator shows Ok exactly when the
    power-board section is valid and neither runstop is pressed; with a
    valid section and the wireless runstop pressed it shows wireless-engaged
    whatever the physical runstop reads. *)
Theorem runstop_ok_only_when_both_released msg w self :
  panel_ok self = true ->
  let shown := PR2Runstops.state
                 (_runstop (self_after (dashboard_callback msg w self))) in
  (shown = PR2Runstops.Ok <->
   power_board_state_valid msg = true
   /\ run_stop (power_board_state msg) = true
   /\ wireless_stop (power_board_state msg) = true)
  /\ (power_board_state_valid msg = true ->
      wireless_stop (power_board_state msg) = false ->
      shown = PR2Runstops.WirelessEngaged)
  /\ shown <> PR2Runstops.Disabled.
Proof.
  intros Hok shown. unfold shown.
  destruct (panel_ok_widgets self Hok) as [_ (battery & Hbat)].
  rewrite (dashboard_callback_closed_form msg w self Hbat).
  cbn [self_after panel_after _runstop PR2Runstops.state].
  destruct (power_board_state_valid msg),
           (wireless_stop (power_board_state msg)),
           (run_stop (power_board_state msg));
    (split; [split; [intros H; try discriminate H; auto
                    | intros (H1 & H2 & H3); try discriminate; reflexivity]
            | split; [intros H1 H2; try discriminate; reflexivity
                     | discriminate]]).
Qed.

(** X5.  On a panel object without a battery widget the callback raises
    IndexError at [self._batteries[0]]: by then the message, its time and the
    motor indicator are written, the breakers and the runstop are not. *)
Theorem dashboard_callback_without_battery msg w self :
  _batteries self = [] ->
  let run := dashboard_callback msg w self in
  outcome run = Raise (IndexError "list index out of range")
  /\ trace run = []
  /\ _dashboard_message (self_after run) = Some msg
  /\ _last_dashboard_message_time (self_after run) = get_time w
  /\ PR2Motors.state (_motors (self_after run))
     = (if motors_halted_valid msg then
          if std_msgs.data (motors_halted msg) then Error else Ok
        else Stale)
  /\ _breakers (self_after run) = _breakers self
  /\ _runstop (self_after run) = _runstop self.
Proof.
  intros Hbat run. unfold run.
  open_message msg. open_panel self. simpl in Hbat. subst.
  all_flags; repeat split; reflexivity.
Qed.

(** ** The command dispatcher as a whole *)

Lemma keeps_self_ret {Self A} (a : A) : keeps_self (ret (Self := Self) a).
Proof. intros w self. reflexivity. Qed.

Lemma keeps_self_raise {Self A} (e : Exn) :
  keeps_self (raise (Self := Self) (A := A) e).
Proof. intros w self. reflexivity. Qed.

Lemma keeps_self_get {Self} : keeps_self (get (Self := Self)).
Proof. intros w self. reflexivity. Qed.

Lemma keeps_self_ask {Self} : keeps_self (ask (Self := Self)).
Proof. intros w self. reflexivity. Qed.

Lemma keeps_self_emit {Self} (ev : Event) : keeps_self (emit (Self := Self) ev).
Proof. intros w self. reflexivity. Qed.

Lemma keeps_self_bind {Self A B} (m : M Self A) (k : A -> M Self B) :
  keeps_self m -> (forall a, keeps_self (k a)) -> keeps_self (bind m k).
Proof.
  intros Hm Hk w self. unfold bind. specialize (Hm w self).
  destruct (outcome (m w self)) as [a|e]; cbn [self_after].
  - rewrite Hm. apply Hk.
  - exact Hm.
Qed.

Lemma keeps_self_try_except {Self A} (m : M Self A)
    (handler : Exn -> option (M Self A)) :
  keeps_self m ->
  (forall e h, handler e = Some h -> keeps_self h) ->
  keeps_self (try_except m handler).
Proof.
  intros Hm Hh w self. unfold try_except. specialize (Hm w self).
  destruct (outcome (m w self)) as [a|e]; [exact Hm|].
  destruct (handler e) as [h|] eqn:He; [|exact Hm].
  cbn [self_after]. rewrite Hm. apply (Hh e h He).
Qed.

Lemma keeps_self_for_each {Self A} (l : list A) (body : A -> M Self unit) :
  (forall x, keeps_self (body x)) -> keeps_self (for_each l body).
Proof.
  intros Hbody. induction l as [|x l IH]; simpl.
  - apply keeps_self_ret.
  - apply keeps_self_bind; [apply Hbody | intros _; exact IH].
Qed.

Lemma keeps_self_getitem {Self A} (l : list A) (i : nat) :
  keeps_self (getitem (Self := Self) l i).
Proof.
  unfold getitem. destruct (nth_error l i);
    [apply keeps_self_ret | apply keeps_self_raise].
Qed.

Lemma keeps_self_reduce {Self A} (f : A -> A -> A) (l : list A) :
  keeps_self (reduce (Self := Self) f l).
Proof.
  unfold reduce. destruct l; [apply keeps_self_raise | apply keeps_self_ret].
Qed.

Lemma keeps_self_call {Self} (proxy : rospy.ServiceProxy) (args : list Z) :
  keeps_self (rospy.call (Self := Self) proxy args).
Proof.
  unfold rospy.call.
  apply keeps_self_bind; [apply keeps_self_emit | intros _].
  apply keeps_self_bind; [apply keeps_self_ask | intros w].
  destruct (service_result w (rospy.name proxy));
    [apply keeps_self_raise | apply keeps_self_ret].
Qed.

Lemma keeps_self_question {Self} parent title text buttons defaultButton :
  keeps_self (question (Self := Self) parent title text buttons defaultButton).
Proof.
  unfold question.
  apply keeps_self_bind; [apply keeps_self_emit | intros _].
  apply keeps_self_bind; [apply keeps_self_ask | intros w].
  apply keeps_self_ret.
Qed.

Lemma on_reset_motors_keeps_self :
  keeps_self (on_reset_motors (PowerState := PowerState) STATE_ON).
Proof.
  unfold on_reset_motors.
  apply keeps_self_bind; [apply keeps_self_get | intros self].
  apply keeps_self_bind.
  - destruct (_dashboard_message self) as [status|]; [|apply keeps_self_ret].
    destruct (power_board_state_valid status); [|apply keeps_self_ret].
    apply keeps_self_bind; [apply keeps_self_reduce | intros enabled].
    destruct (negb enabled); [|apply keeps_self_ret].
    apply keeps_self_bind; [apply keeps_self_getitem | intros parent].
    apply keeps_self_bind; [apply keeps_self_question | intros answer].
    destruct (QMessageBox.eqb answer QMessageBox.Yes); [|apply keeps_self_ret].
    apply keeps_self_for_each. intros breaker.
    unfold PR2BreakerButton.set_enable. apply keeps_self_emit.
  - intros _. apply keeps_self_try_except; [apply keeps_self_call|].
    intros e h He. destruct e; try discriminate He.
    injection He as <-.
    apply keeps_self_bind; [apply keeps_self_getitem | intros parent].
    unfold critical. apply keeps_self_emit.
Qed.

(** X6.  [on_reset_motors] never writes to the panel object: with or
    without a status, whatever the user answers, whether the handler
    returns or raises, the panel is afterwards what it was before. *)
Theorem on_reset_motors_changes_no_state w self :
  self_after (on_reset_motors STATE_ON w self) = self.
Proof.
  apply on_reset_motors_keeps_self.
Qed.

(** X7.  An exception of the remote call that is not a service exception is
    not caught: the handler raises it, shows no error dialog and leaves the
    panel alone.  For [on_reset_motors] the call has to be reached. *)
Theorem other_exceptions_propagate w self e :
  (forall text, e <> ServiceException text) ->
  (service_result w (halt_motors_service self) = Some e ->
   outcome (on_halt_motors w self) = Raise e
   /\ existsb is_critical (trace (on_halt_motors w self)) = false
   /\ self_after (on_halt_motors w self) = self)
  /\ (panel_ok self = true ->
      circuit_state_present self = true ->
      service_result w (reset_motors_service self) = Some e ->
      outcome (on_reset_motors STATE_ON w self) = Raise e
      /\ existsb is_critical (trace (on_reset_motors STATE_ON w self)) = false
      /\ self_after (on_reset_motors STATE_ON w self) = self).
Proof.
  intros Hother. split.
  - intros Hraise. rewrite on_halt_motors_run, Hraise.
    destruct e; try (repeat split; reflexivity).
    now elim (Hother e).
  - intros Hok Hpresent Hraise.
    rewrite (on_reset_motors_run STATE_ON w self Hok Hpresent), Hraise.
    destruct (panel_ok_widgets self Hok) as [(l & b & r & ->) _].
    destruct e; try (now elim (Hother e));
      destruct (needs_confirmation STATE_ON self), (question_reply w);
      repeat split; reflexivity.
Qed.

(** X8.  An error dialog appears exactly when the remote call raised a
    service exception; when the call returns, the handler returns too. *)
Theorem error_dialog_only_on_service_failure w self :
  (existsb is_critical (trace (on_halt_motors w self))
   = match service_result w (halt_motors_service self) with
     | Some (ServiceException _) => true
     | _ => false
     end
   /\ (service_result w (halt_motors_service self) = None ->
       on_halt_motors w self
       = {| outcome := Return tt;
            self_after := self;
            trace := [ServiceCall (_motor_namespace self ++ "/halt_motors")
                                  "std_srvs/Empty" []] |}))
  /\ (panel_ok self = true ->
      circuit_state_present self = true ->
      existsb is_critical (trace (on_reset_motors STATE_ON w self))
      = match service_result w (reset_motors_service self) with
        | Some (ServiceException _) => true
        | _ => false
        end
      /\ (service_result w (reset_motors_service self) = None ->
          outcome (on_reset_motors STATE_ON w self) = Return tt)).
Proof.
  split.
  - rewrite on_halt_motors_run. split.
    + destruct (service_result w (halt_motors_service self)) as [[]|];
        reflexivity.
    + intros ->. reflexivity.
  - intros Hok Hpresent.
    rewrite (on_reset_motors_run STATE_ON w self Hok Hpresent).
    destruct (panel_ok_widgets self Hok) as [(l & b & r & ->) _].
    split.
    + destruct (service_result w (reset_motors_service self)) as [[]|];
        destruct (needs_confirmation STATE_ON self), (question_reply w);
        reflexivity.
    + intros ->. reflexivity.
Qed.

(** X9.  The question of [on_reset_motors] follows the last status the
    callback stored: after a status with at least one circuit state, the
    next reset asks exactly when that status has a valid power-board section
    and a circuit state other than ON. *)
Theorem prompt_follows_last_status msg w w' self :
  panel_ok self = true ->
  circuit_state (power_board_state msg) <> [] ->
  existsb is_question
    (trace (on_reset_motors STATE_ON w'
              (self_after (dashboard_callback msg w self))))
  = power_board_state_valid msg
    && negb (forallb (fun state => Z.eqb state STATE_ON)
                     (circuit_state (power_board_state msg))).
Proof.
  intros Hok Hcircuit.
  destruct (panel_ok_widgets self Hok) as [(l & b & r & Hbr) (battery & Hbat)].
  rewrite (dashboard_callback_closed_form msg w self Hbat). cbv [self_after].
  set (self' := panel_after msg (get_time w) self).
  assert (Hok' : panel_ok self' = true).
  { unfold panel_ok, self', panel_after. cbn [_breakers _batteries].
    rewrite Hbr, Hbat. reflexivity. }
  assert (Hpresent : circuit_state_present self' = true).
  { unfold circuit_state_present, self', panel_after.
    cbn [_dashboard_message].
    destruct (power_board_state_valid msg); [|reflexivity].
    destruct (circuit_state (power_board_state msg)); [now elim Hcircuit|].
    reflexivity. }
  rewrite (on_reset_motors_run STATE_ON w' self' Hok' Hpresent). cbv [trace].
  assert (Hasked : needs_confirmation STATE_ON self'
                   = power_board_state_valid msg
                     && negb (forallb (fun state => Z.eqb state STATE_ON)
                                      (circuit_state (power_board_state msg))))
    by reflexivity.
  rewrite <- Hasked.
  destruct (needs_confirmation STATE_ON self').
  - reflexivity.
  - cbn [app existsb is_question orb].
    destruct (service_result w' (reset_motors_service self')) as [[]|];
      reflexivity.
Qed.

(** ** The life of a panel *)

Lemma breaker_labels_map (f : PR2BreakerButton.t -> PR2BreakerButton.t)
    (breakers : list PR2BreakerButton.t) :
  (forall breaker, breaker_label (f breaker) = breaker_label breaker) ->
  map breaker_label (map f breakers) = map breaker_label breakers.
Proof.
  intros Hf. rewrite map_map. apply map_ext. exact Hf.
Qed.

Lemma reachable_widgets parse_args self :
  reachable parse_args STATE_ON self ->
  map breaker_label (_breakers self)
  = [("Left Arm", 0%nat); ("Base", 1%nat); ("Right Arm", 2%nat)]
  /\ List.length (_batteries self) = 1%nat
  /\ PR2Runstops.name (_runstop self) = "RunStops"
  /\ name self = "PR2 Dashboard"
  /\ rospy.topic (_dashboard_agg_sub self) = "dashboard_agg".
Proof.
  induction 1 as [argv self Hsetup
                 | msg w self _ IH | w self _ IH | w self _ IH | w self _ IH].
  - unfold setup in Hsetup.
    destruct (parse_args _ argv) as [args|e]; [|discriminate].
    destruct (argparse.getattr args "motor_namespace") as [ns|e];
      [|discriminate].
    injection Hsetup as <-. repeat split.
  - destruct IH as (Hlabels & Hbat & Hrunstop & Hname & Htopic).
    destruct (_batteries self) as [|battery [|]] eqn:Hbatteries;
      try discriminate Hbat.
    rewrite (dashboard_callback_closed_form msg w self Hbatteries).
    cbv [self_after]. unfold panel_after.
    cbn [_breakers _batteries _runstop name _dashboard_agg_sub
         PR2Runstops.name].
    rewrite Hbatteries. repeat split; try assumption.
    rewrite <- Hlabels. apply breaker_labels_map. reflexivity.
  - now rewrite on_reset_motors_keeps_self.
  - now rewrite on_halt_motors_run.
  - exact IH.
Qed.

(** What [setup] builds, whatever the parser returned. *)
Lemma setup_widgets parse_args argv self :
  setup PowerState parse_args argv = Return self ->
  map breaker_label (_breakers self)
  = [("Left Arm", 0%nat); ("Base", 1%nat); ("Right Arm", 2%nat)]
  /\ List.length (_batteries self) = 1%nat
  /\ PR2Runstops.name (_runstop self) = "RunStops"
  /\ name self = "PR2 Dashboard"
  /\ _dashboard_agg_sub self
     = {| rospy.topic := "dashboard_agg"; rospy.registered := true |}.
Proof.
  unfold setup. intros Hsetup.
  destruct (parse_args _ argv) as [args|e]; [|discriminate].
  destruct (argparse.getattr args "motor_namespace") as [ns|e];
    [|discriminate].
  injection Hsetup as <-. repeat split.
Qed.

(** [setup] stores what the parser returned for [motor_namespace]. *)
Lemma setup_motor_namespace parse_args argv self :
  setup PowerState parse_args argv = Return self ->
  exists args,
    parse_args
      (add_arguments {| argparse.prog := "pr2_dashboard";
                        argparse.add_help := false;
                        argparse.actions := [] |})
      argv
    = Return args
    /\ argparse.getattr args "motor_namespace"
       = Return (_motor_namespace self).
Proof.
  unfold setup. intros Hsetup.
  destruct (parse_args _ argv) as [args|e]; [|discriminate].
  exists args. split; [reflexivity|].
  destruct (argparse.getattr args "motor_namespace") as [ns|e];
    [|discriminate].
  injection Hsetup as <-. reflexivity.
Qed.

(** The widgets and the subscription along the life of a panel. *)
Lemma evolves_widgets shut self0 self :
  evolves STATE_ON shut self0 self ->
  map breaker_label (_breakers self0)
  = [("Left Arm", 0%nat); ("Base", 1%nat); ("Right Arm", 2%nat)] ->
  List.length (_batteries self0) = 1%nat ->
  map breaker_label (_breakers self) = map breaker_label (_breakers self0)
  /\ List.length (_batteries self) = 1%nat
  /\ PR2Runstops.name (_runstop self) = PR2Runstops.name (_runstop self0)
  /\ name self = name self0
  /\ rospy.topic (_dashboard_agg_sub self)
     = rospy.topic (_dashboard_agg_sub self0)
  /\ rospy.registered (_dashboard_agg_sub self)
     = (if shut then false else rospy.registered (_dashboard_agg_sub self0)).
Proof.
  intros Hlife Hlabels0 Hbat0.
  induction Hlife as [self0
                     | shut msg w self0 self _ IH | shut w self0 self _ IH
                     | shut w self0 self _ IH | shut w self0 self _ IH].
  - repeat split. exact Hbat0.
  - destruct (IH Hlabels0 Hbat0)
      as (Hlabels & Hbat & Hrunstop & Hname & Htopic & Hreg).
    destruct (_batteries self) as [|battery [|]] eqn:Hbatteries;
      try discriminate Hbat.
    rewrite (dashboard_callback_closed_form msg w self Hbatteries).
    cbv [self_after]. unfold panel_after.
    cbn [_breakers _batteries _runstop name _dashboard_agg_sub
         PR2Runstops.name].
    rewrite Hbatteries. repeat split; try assumption.
    rewrite <- Hlabels. apply breaker_labels_map. reflexivity.
  - rewrite on_reset_motors_keeps_self. exact (IH Hlabels0 Hbat0).
  - rewrite on_halt_motors_run. exact (IH Hlabels0 Hbat0).
  - destruct (IH Hlabels0 Hbat0)
      as (Hlabels & Hbat & Hrunstop & Hname & Htopic & _).
    repeat split; assumption.
Qed.

(** No status, command or shutdown writes the motor namespace. *)
Lemma evolves_motor_namespace shut self0 self :
  evolves STATE_ON shut self0 self ->
  _motor_namespace self = _motor_namespace self0.
Proof.
  induction 1 as [self0
                 | shut msg w self0 self _ IH | shut w self0 self _ IH
                 | shut w self0 self _ IH | shut w self0 self _ IH].
  - reflexivity.
  - destruct (dashboard_callback_frame msg w self) as (_ & _ & _ & Hkeep & _).
    now rewrite Hkeep.
  - now rewrite on_reset_motors_keeps_self.
  - now rewrite on_halt_motors_run.
  - exact IH.
Qed.

Lemma evolves_panel_ok parse_args argv shut self0 self :
  setup PowerState parse_args argv = Return self0 ->
  evolves STATE_ON shut self0 self ->
  panel_ok self = true.
Proof.
  intros Hsetup Hlife.
  destruct (setup_widgets parse_args argv Hsetup) as (Hlabels0 & Hbat0 & _).
  destruct (evolves_widgets Hlife Hlabels0 Hbat0) as (Hlabels & Hbat & _).
  unfold panel_ok. rewrite Hbat.
  apply (f_equal (@List.length _)) in Hlabels.
  rewrite !length_map in Hlabels. rewrite Hlabels.
  apply (f_equal (@List.length _)) in Hlabels0.
  rewrite length_map in Hlabels0. rewrite Hlabels0. reflexivity.
Qed.

(** X10.  A panel that [setup] has built and that has since gone through
    any statuses, commands and shutdowns holds the three breaker buttons
    Left Arm, Base and Right Arm on circuits 0, 1 and 2 in this order, one
    battery widget, the runstop widget RunStops and the name PR2 Dashboard;
    its subscription is the one on dashboard_agg, registered as long as
    [shutdown_dashboard] has not run and unregistered from then on. *)
Theorem reachable_panel_keeps_its_widgets parse_args argv shut self0 self :
  setup PowerState parse_args argv = Return self0 ->
  evolves STATE_ON shut self0 self ->
  panel_ok self = true
  /\ map breaker_label (_breakers self)
     = [("Left Arm", 0%nat); ("Base", 1%nat); ("Right Arm", 2%nat)]
  /\ List.length (_batteries self) = 1%nat
  /\ PR2Runstops.name (_runstop self) = "RunStops"
  /\ name self = "PR2 Dashboard"
  /\ _dashboard_agg_sub self
     = {| rospy.topic := "dashboard_agg"; rospy.registered := negb shut |}.
Proof.
  intros Hsetup Hlife. split.
  - exact (evolves_panel_ok parse_args argv Hsetup Hlife).
  - destruct (setup_widgets parse_args argv Hsetup)
      as (Hlabels0 & Hbat0 & Hrunstop0 & Hname0 & Hsub0).
    destruct (evolves_widgets Hlife Hlabels0 Hbat0)
      as (Hlabels & Hbat & Hrunstop & Hname & Htopic & Hreg).
    rewrite Hlabels, Hrunstop, Hname.
    repeat split; try assumption.
    rewrite Hsub0 in Htopic, Hreg. simpl in Htopic, Hreg.
    destruct (_dashboard_agg_sub self) as [topic registered].
    simpl in Htopic, Hreg. subst. now destruct shut.
Qed.

(** X11.  No status, command or shutdown changes the motor namespace: from
    whatever panel the plugin starts, the namespace and with it the endpoints
    of the two commands are afterwards what they were at the start. *)
Theorem motor_namespace_never_changes shut self0 self :
  evolves STATE_ON shut self0 self ->
  _motor_namespace self = _motor_namespace self0
  /\ reset_motors_service self = reset_motors_service self0
  /\ halt_motors_service self = halt_motors_service self0.
Proof.
  intros Hlife. unfold reset_motors_service, halt_motors_service.
  rewrite (evolves_motor_namespace Hlife). repeat split.
Qed.

(** C8.  Both commands go to the endpoint named by the motor namespace of
    the panel followed by "/halt_motors" or "/reset_motors".  The namespace
    is the one string option the panel declares, [--motor-namespace] with
    the default "pr2_ethercat": [setup] hands the argument list of the panel
    to the parser, keeps what the parser returns for the option, whatever
    that is, and the commands use that value for the life of the panel. *)
Theorem motor_services_addressed_by_namespace :
  (forall w (self : PR2Dashboard PowerState),
     filter is_service_call (trace (on_halt_motors w self)) =
     [ServiceCall (_motor_namespace self ++ "/halt_motors") "std_srvs/Empty" []])
  /\ (forall w (self : PR2Dashboard PowerState),
        panel_ok self = true ->
        circuit_state_present self = true ->
        filter is_service_call (trace (on_reset_motors STATE_ON w self)) =
        [ServiceCall (_motor_namespace self ++ "/reset_motors")
                     "std_srvs/Empty" []])
  /\ argparse.actions
       (add_arguments {| argparse.prog := "pr2_dashboard";
                         argparse.add_help := false;
                         argparse.actions := [] |})
     = [{| argparse.option_string := "--motor-namespace";
           argparse.dest := "motor_namespace";
           argparse.type_ := "str";
           argparse.default := "pr2_ethercat" |}]
  /\ (forall parse_args argv shut w (self0 self : PR2Dashboard PowerState),
        setup PowerState parse_args argv = Return self0 ->
        evolves STATE_ON shut self0 self ->
        exists args namespace,
          parse_args
            (add_arguments {| argparse.prog := "pr2_dashboard";
                              argparse.add_help := false;
                              argparse.actions := [] |})
            argv
          = Return args
          /\ argparse.getattr args "motor_namespace" = Return namespace
          /\ _motor_namespace self = namespace
          /\ filter is_service_call (trace (on_halt_motors w self)) =
             [ServiceCall (namespace ++ "/halt_motors") "std_srvs/Empty" []]
          /\ (circuit_state_present self = true ->
              filter is_service_call
                (trace (on_reset_motors STATE_ON w self)) =
              [ServiceCall (namespace ++ "/reset_motors")
                           "std_srvs/Empty" []]))
  /\ (forall parse_args argv args namespace,
        parse_args
          (add_arguments {| argparse.prog := "pr2_dashboard";
                            argparse.add_help := false;
                            argparse.actions := [] |})
          argv
        = Return args ->
        argparse.getattr args "motor_namespace" = Return namespace ->
        exists self,
          setup PowerState parse_args argv = Return self
          /\ _motor_namespace self = namespace).
Proof.
  assert (Hhalt : forall w (self : PR2Dashboard PowerState),
             filter is_service_call (trace (on_halt_motors w self)) =
             [ServiceCall (_motor_namespace self ++ "/halt_motors")
                          "std_srvs/Empty" []]).
  { intros w self. rewrite on_halt_motors_run. cbv [trace].
    unfold halt_motors_service.
    destruct (service_result w (_motor_namespace self ++ "/halt_motors"))
      as [[]|]; reflexivity. }
  assert (Hreset : forall w (self : PR2Dashboard PowerState),
             panel_ok self = true ->
             circuit_state_present self = true ->
             filter is_service_call (trace (on_reset_motors STATE_ON w self)) =
             [ServiceCall (_motor_namespace self ++ "/reset_motors")
                          "std_srvs/Empty" []]).
  { intros w self Hok Hpresent.
    rewrite (on_reset_motors_run STATE_ON w self Hok Hpresent). cbv [trace].
    destruct (panel_ok_widgets self Hok) as [(l & b & r & ->) _].
    unfold reset_motors_service.
    destruct (service_result w (_motor_namespace self ++ "/reset_motors"))
      as [[]|];
      destruct (needs_confirmation STATE_ON self), (question_reply w);
      reflexivity. }
  split; [exact Hhalt|]. split; [exact Hreset|]. split; [reflexivity|].
  split.
  - intros parse_args argv shut w self0 self Hsetup Hlife.
    destruct (setup_motor_namespace parse_args argv Hsetup)
      as (args & Hparse & Hattr).
    pose proof (evolves_motor_namespace Hlife) as Hns.
    exists args, (_motor_namespace self0).
    split; [exact Hparse|]. split; [exact Hattr|]. split; [exact Hns|].
    rewrite <- Hns. split; [apply Hhalt|].
    intros Hpresent. apply Hreset; [|exact Hpresent].
    exact (evolves_panel_ok parse_args argv Hsetup Hlife).
  - intros parse_args argv args namespace Hparse Hattr.
    unfold setup. rewrite Hparse, Hattr.
    eexists. split; reflexivity.
Qed.

Lemma reachable_panel_ok parse_args self :
  reachable parse_args STATE_ON self -> panel_ok self = true.
Proof.
  intros Hreach.
  destruct (reachable_widgets Hreach) as (Hlabels & Hbat & _).
  unfold panel_ok. rewrite Hbat.
  apply (f_equal (@List.length _)) in Hlabels.
  rewrite length_map in Hlabels. rewrite Hlabels. reflexivity.
Qed.

(** X12.  On every panel the plugin can be in, [get_widgets] gives four
    rows: monitor, console and motors; the three breakers Left Arm, Base and
    Right Arm in the order of their circuits; the runstop; the battery. *)
Theorem get_widgets_layout parse_args self :
  reachable parse_args STATE_ON self ->
  exists left base right battery,
    get_widgets self
    = [[Widget.Monitor; Widget.Console; Widget.Motors (_motors self)];
       [Widget.Breaker left; Widget.Breaker base; Widget.Breaker right];
       [Widget.Runstop (_runstop self)];
       [Widget.Battery battery]]
    /\ breaker_label left = ("Left Arm", 0%nat)
    /\ breaker_label base = ("Base", 1%nat)
    /\ breaker_label right = ("Right Arm", 2%nat).
Proof.
  intros Hreach.
  destruct (reachable_widgets Hreach) as (Hlabels & Hbat & _).
  unfold get_widgets.
  destruct (_breakers self) as [|l [|b [|r [|extra more]]]];
    try discriminate Hlabels.
  destruct (_batteries self) as [|battery [|]]; try discriminate Hbat.
  exists l, b, r, battery. simpl in Hlabels.
  repeat split; unfold breaker_label in *; congruence.
Qed.
End Behaviour.

(** * The further properties at sample inputs *)

Lemma last_status_wins_witness :
  panel_ok Sample.fresh_panel = true
  /\ self_after (dashboard_callback Edge.halted_status Sample.failing_world
                   (Sample.panel_with Sample.standby_status))
     = self_after (dashboard_callback Edge.halted_status Sample.failing_world
                     Sample.fresh_panel).
Proof.
  split; [reflexivity|].
  exact (last_status_wins Sample.standby_status Edge.halted_status
           Sample.quiet_world Sample.failing_world Sample.fresh_panel eq_refl).
Defined.

Lemma dashboard_callback_silent_witness :
  panel_ok Sample.fresh_panel = true
  /\ outcome (dashboard_callback Sample.stale_status Sample.quiet_world
                Sample.fresh_panel) = Return tt
  /\ trace (dashboard_callback Sample.stale_status Sample.quiet_world
              Sample.fresh_panel) = [].
Proof.
  split; [reflexivity|].
  destruct (dashboard_callback_silent Sample.stale_status Sample.quiet_world
              Sample.fresh_panel eq_refl) as (Hreturns & Hsilent & _).
  split; [exact Hreturns | exact Hsilent].
Defined.

Lemma power_board_valid_reaches_every_breaker_witness :
  panel_ok Sample.fresh_panel = true
  /\ power_board_state_valid Edge.halted_status = true
  /\ map breaker_label (_breakers (Sample.panel_with Edge.halted_status))
     = [("Left Arm", 0%nat); ("Base", 1%nat); ("Right Arm", 2%nat)].
Proof.
  split; [reflexivity|]. split; [reflexivity|].
  exact (proj1 (proj2 (proj2
           (power_board_valid_reaches_every_breaker Edge.halted_status
              Sample.quiet_world Sample.fresh_panel eq_refl eq_refl)))).
Defined.

Lemma runstop_ok_only_when_both_released_witness :
  panel_ok Sample.fresh_panel = true
  /\ PR2Runstops.state (_runstop (Sample.panel_with Sample.standby_status))
     <> PR2Runstops.Disabled.
Proof.
  split; [reflexivity|].
  exact (proj2 (proj2
           (runstop_ok_only_when_both_released Sample.standby_status
              Sample.quiet_world Sample.fresh_panel eq_refl))).
Defined.

Lemma dashboard_callback_without_battery_witness :
  _batteries Edge.no_battery_panel = []
  /\ outcome (dashboard_callback Sample.standby_status Sample.quiet_world
                Edge.no_battery_panel)
     = Raise (IndexError "list index out of range")
  /\ _breakers (self_after (dashboard_callback Sample.standby_status
                              Sample.quiet_world Edge.no_battery_panel))
     = _breakers Edge.no_battery_panel.
Proof.
  split; [reflexivity|].
  destruct (dashboard_callback_without_battery Sample.standby_status
              Sample.quiet_world Edge.no_battery_panel eq_refl)
    as (Hraises & _ & _ & _ & _ & Hbreakers & _).
  split; [exact Hraises | exact Hbreakers].
Defined.

Lemma other_exceptions_propagate_witness :
  service_result Edge.interrupted_world
    (halt_motors_service Sample.fresh_panel)
  = Some (OtherException "ROSInterruptException" "rospy shutdown")
  /\ outcome (on_halt_motors Edge.interrupted_world Sample.fresh_panel)
     = Raise (OtherException "ROSInterruptException" "rospy shutdown").
Proof.
  split; [reflexivity|].
  refine (proj1 (proj1 (other_exceptions_propagate 3 Edge.interrupted_world
                          Sample.fresh_panel _) eq_refl)).
  intros text. discriminate.
Defined.

Lemma error_dialog_only_on_service_failure_witness :
  panel_ok (Sample.panel_with Edge.halted_status) = true
  /\ circuit_state_present (Sample.panel_with Edge.halted_status) = true
  /\ existsb is_critical
       (trace (on_reset_motors 3 Sample.quiet_world
                 (Sample.panel_with Edge.halted_status)))
     = false.
Proof.
  split; [reflexivity|]. split; [reflexivity|].
  exact (proj1 (proj2 (error_dialog_only_on_service_failure 3
                         Sample.quiet_world
                         (Sample.panel_with Edge.halted_status))
                      eq_refl eq_refl)).
Defined.

Lemma prompt_follows_last_status_witness :
  panel_ok Sample.fresh_panel = true
  /\ circuit_state (power_board_state Sample.standby_status) <> []
  /\ existsb is_question
       (trace (on_reset_motors 3 Sample.quiet_world
                 (Sample.panel_with Sample.standby_status)))
     = true.
Proof.
  split; [reflexivity|]. split; [discriminate|].
  refine (prompt_follows_last_status 3 Sample.standby_status
            Sample.quiet_world Sample.quiet_world Sample.fresh_panel
            eq_refl _).
  discriminate.
Defined.

Lemma reachable_panel_keeps_its_widgets_witness :
  setup Z Sample.parse_no_options [] = Return Sample.fresh_panel
  /\ evolves 3 true Sample.fresh_panel
       (self_after (shutdown_dashboard Sample.quiet_world
                      (Sample.panel_with Sample.standby_status)))
  /\ _dashboard_agg_sub
       (self_after (shutdown_dashboard Sample.quiet_world
                      (Sample.panel_with Sample.standby_status)))
     = {| rospy.topic := "dashboard_agg"; rospy.registered := false |}.
Proof.
  assert (Hlife : evolves 3 true Sample.fresh_panel
                    (self_after (shutdown_dashboard Sample.quiet_world
                                   (Sample.panel_with Sample.standby_status)))).
  { apply evolves_shutdown with (shut := false).
    apply evolves_callback. apply evolves_start. }
  split; [reflexivity|]. split; [exact Hlife|].
  destruct (reachable_panel_keeps_its_widgets (STATE_ON := 3)
              Sample.parse_no_options [] (eq_refl (Return Sample.fresh_panel))
              Hlife)
    as (_ & _ & _ & _ & _ & Hsub).
  exact Hsub.
Defined.

Lemma motor_namespace_never_changes_witness :
  evolves 3 false (Sample.panel_with Sample.stale_status)
    (self_after (on_halt_motors Sample.failing_world
                   (Sample.panel_with Sample.stale_status)))
  /\ _motor_namespace
       (self_after (on_halt_motors Sample.failing_world
                      (Sample.panel_with Sample.stale_status)))
     = "pr2_ethercat".
Proof.
  assert (Hlife : evolves 3 false (Sample.panel_with Sample.stale_status)
                    (self_after (on_halt_motors Sample.failing_world
                                   (Sample.panel_with Sample.stale_status)))).
  { apply evolves_halt_motors. apply evolves_start. }
  split; [exact Hlife|].
  exact (proj1 (motor_namespace_never_changes Hlife)).
Defined.

Lemma motor_services_addressed_by_namespace_witness :
  setup Z Sample.parse_base_ethercat ["--motor-namespace=base_ethercat"]
  = Return Edge.base_ethercat_panel
  /\ evolves 3 false Edge.base_ethercat_panel
       (self_after (dashboard_callback Sample.standby_status
                      Sample.quiet_world Edge.base_ethercat_panel))
  /\ filter is_service_call
       (trace (on_halt_motors Sample.failing_world
                 (self_after (dashboard_callback Sample.standby_status
                                Sample.quiet_world Edge.base_ethercat_panel))))
     = [ServiceCall "base_ethercat/halt_motors" "std_srvs/Empty" []].
Proof.
  assert (Hlife : evolves 3 false Edge.base_ethercat_panel
                    (self_after (dashboard_callback Sample.standby_status
                                   Sample.quiet_world
                                   Edge.base_ethercat_panel))).
  { apply evolves_callback. apply evolves_start. }
  split; [reflexivity|]. split; [exact Hlife|].
  destruct (proj1 (proj2 (proj2 (proj2
              (motor_services_addressed_by_namespace Z 3))))
              Sample.parse_base_ethercat ["--motor-namespace=base_ethercat"]
              false Sample.failing_world Edge.base_ethercat_panel _
              eq_refl Hlife)
    as (args & namespace & _ & _ & Hns & Hhalt & _).
  rewrite <- Hns in Hhalt. exact Hhalt.
Defined.

Lemma get_widgets_layout_witness :
  reachable Sample.parse_no_options 3 Sample.fresh_panel
  /\ map (@List.length _) (get_widgets Sample.fresh_panel)
     = [3; 3; 1; 1]%nat.
Proof.
  assert (Hreach : reachable Sample.parse_no_options 3 Sample.fresh_panel).
  { apply (reach_setup Sample.parse_no_options 3 []). reflexivity. }
  split; [exact Hreach|].
  destruct (get_widgets_layout Hreach) as (l & b & r & battery & Hrows & _).
  rewrite Hrows. reflexivity.
Defined.
